(** * AirBoost: the Airtable webhook receiver

    A shallow embedding of [src/api/endpoints/webhooks.ts] (the handler of
    [POST /webhooks/airtable/refresh]) and of the token comparison of
    [src/api/middleware/auth.ts], with the properties of the change
    notification pipeline proved about them.

    Conventions.
    - Strings are byte strings (the UTF-8 encoding of the JavaScript
      string), so [Buffer.from] is the list of the string's bytes.
    - Times are integers (milliseconds since the epoch), as [Date.now()]
      returns them.
    - The handler is written in a small monad that threads the pipeline
      state and the trace of the operations performed, and that stops at
      the first [return] (a response) or uncaught exception.
    - Requests are handled one after the other: a run of the handler is
      not interleaved with another one at its [await]s.
    - Logging ([log.warn], [log.info], [log.error]) is not modelled. *)

From Stdlib Require Import ZArith NArith List Bool Ascii String Lia.
From stdpp Require Import base option strings pretty gmap.

Import ListNotations.

(** ** JSON values, as [JSON.parse] returns them *)

Set Warnings "-register-all".

(** The array index that a property name denotes, when it is the decimal
    numeral of one, without superfluous leading zero. *)
Definition digit_value (c : ascii) : option N :=
  let n := N_of_ascii c in
  if ((48 <=? n) && (n <=? 57))%N then Some (n - 48)%N else None.

Fixpoint digits_value (acc : N) (s : string) : option N :=
  match s with
  | EmptyString => Some acc
  | String c rest =>
      match digit_value c with
      | Some d => digits_value (10 * acc + d)%N rest
      | None => None
      end
  end.

Definition array_index (k : string) : option N :=
  match k with
  | EmptyString => None
  | String c EmptyString => digit_value c
  | String c _ => if Ascii.eqb c "0" then None else digits_value 0 k
  end.

Section Json.
Context {N : Type}.

Inductive json : Type :=
| JNull
| JBool (b : bool)
| JNum (n : N)
| JStr (s : string)
| JArr (items : list json)
| JObj (fields : list (string * json)).

(** Own property lookup on the field list of an object. *)
Fixpoint lookup_field (k : string) (fields : list (string * json)) : option json :=
  match fields with
  | [] => None
  | (k', v) :: rest => if String.eqb k k' then Some v else lookup_field k rest
  end.

Definition has_field (k : string) (fields : list (string * json)) : bool :=
  match lookup_field k fields with Some _ => true | None => false end.

(** The property names of an array: its indices and ["length"]. *)
Definition array_has_key (k : string) (items : list json) : bool :=
  String.eqb k "length"
  || match array_index k with
     | Some i => (i <? N.of_nat (List.length items))%N
     | None => false
     end.

(** [k in v]. [None] is the [TypeError] that the operator raises on a
    value that is not an object. *)
Definition js_in (k : string) (v : json) : option bool :=
  match v with
  | JObj fields => Some (has_field k fields)
  | JArr items => Some (array_has_key k items)
  | JNull | JBool _ | JNum _ | JStr _ => None
  end.

(** [v.k] for a value [v] that is neither [null] nor [undefined], and a
    name [k] that no prototype defines (the handler reads [timestamp],
    [webhook] and [id]). [None] is [undefined]. *)
Definition get_prop (k : string) (v : json) : option json :=
  match v with
  | JObj fields => lookup_field k fields
  | JArr items => None
  | JNull | JBool _ | JNum _ | JStr _ => None
  end.

(** [v?.k] on a possibly undefined [v]: [undefined] when [v] is
    [undefined] or [null]. *)
Definition get_prop_opt (k : string) (v : option json) : option json :=
  match v with
  | None | Some JNull => None
  | Some v => get_prop k v
  end.
End Json.

Arguments json : clear implicits.

(** ** The platform: JavaScript built-ins and code outside this module

    [JSON.parse], [Date] and the Number conversions are JavaScript
    built-ins. [calculateWebhookHmac] is the function of
    [src/lib/airtable/webhook-hmac.ts]: the HMAC-SHA256 of a body under a
    base64 secret, rendered as a string. The pipeline is verified for any
    platform. *)

Class Platform := {
  (** The Number values that [JSON.parse] can produce. *)
  number : Type;
  (** [ToBoolean] of a Number. *)
  Number_truthy : number -> bool;
  (** [String(n)]. *)
  Number_toString : number -> string;
  (** [new Date(n).getTime()]; [None] is [NaN]. *)
  Number_timeValue : number -> option Z;
  (** [JSON.parse(text)]; [None] is a thrown [SyntaxError]. *)
  JSON_parse : string -> option (json number);
  (** [new Date(text).getTime()]; [None] is [NaN]. *)
  Date_parse : string -> option Z;
  (** [calculateWebhookHmac(macSecretBase64, rawBody)]. *)
  calculateWebhookHmac : string -> string -> string;
}.

(** [config.webhookTimestampWindow] and [config.webhookRateLimit], both in
    seconds. *)
Record Config := {
  webhookTimestampWindow : Z;
  webhookRateLimit : Z;
}.

(** The values of the platform's JSON. *)
Abbreviation value := (json number).

Section Conversions.
Context `{Platform}.

(** [ToBoolean] of a possibly undefined value: what [if (v)] tests. *)
Definition truthy (v : option value) : bool :=
  match v with
  | None => false
  | Some JNull => false
  | Some (JBool b) => b
  | Some (JNum n) => Number_truthy n
  | Some (JStr s) => negb (String.eqb s "")
  | Some (JArr _) => true
  | Some (JObj _) => true
  end.

(** [String(v)] of a defined value, as a template literal converts it;
    [None] is a thrown [TypeError]. An object is converted by its
    [toString] method: an object parsed from JSON has the one of
    [Object.prototype], which gives ["[object Object]"], unless it has a
    key [toString] of its own, whose value is not a function, and then the
    conversion throws. An array is its elements joined by commas, with
    [null] elements empty, and throws when the conversion of an element
    does. *)
Fixpoint ToString (v : value) : option string :=
  match v with
  | JNull => Some "null"
  | JBool true => Some "true"
  | JBool false => Some "false"
  | JNum n => Some (Number_toString n)
  | JStr s => Some s
  | JArr items =>
      (fix join (l : list value) : option string :=
         match l with
         | [] => Some ""
         | x :: rest =>
             match (match x with JNull => Some "" | _ => ToString x end) with
             | None => None
             | Some first =>
                 match rest with
                 | [] => Some first
                 | _ :: _ =>
                     match join rest with
                     | Some others => Some (first +:+ "," +:+ others)
                     | None => None
                     end
                 end
             end
         end) items
  | JObj fields =>
      if has_field "toString" fields then None else Some "[object Object]"
  end.

(** [`${v}`] of a possibly undefined value; [None] is a thrown
    [TypeError]. *)
Definition template (v : option value) : option string :=
  match v with
  | None => Some "undefined"
  | Some v => ToString v
  end.

(** [new Date(v).getTime()] of a defined value. The outer [None] is a
    thrown [TypeError], the inner one is [NaN]. A string is parsed, an
    object or an array is first converted to a string, which can throw,
    anything else is converted to a Number. *)
Definition Date_getTime (v : value) : option (option Z) :=
  match v with
  | JStr s => Some (Date_parse s)
  | JArr _ | JObj _ =>
      match ToString v with
      | Some s => Some (Date_parse s)
      | None => None
      end
  | JNum n => Some (Number_timeValue n)
  | JBool true => Some (Some 1%Z)
  | JBool false | JNull => Some (Some 0%Z)
  end.

(** [isPing(body)]: [!("base" in body || "webhook" in body || "timestamp" in body)].
    [None] is the [TypeError] of [in] applied to a primitive. *)
Definition isPing (body : value) : option bool :=
  match js_in "base" body with
  | None => None
  | Some true => Some false
  | Some false =>
      match js_in "webhook" body with
      | None => None
      | Some true => Some false
      | Some false =>
          match js_in "timestamp" body with
          | None => None
          | Some b => Some (negb b)
          end
      end
  end.

End Conversions.

(** ** Buffers and the constant-time comparison *)

(** [Buffer.from(s)]: the bytes of the string. *)
Definition Buffer_from (s : string) : list ascii := list_ascii_of_string s.

(** The comparison loop of [crypto.timingSafeEqual] on two buffers: every
    pair of bytes is combined into one accumulator, whatever the bytes
    are, and the accumulator is tested once at the end. *)
Fixpoint ct_accumulate (acc : N) (a b : list ascii) : N :=
  match a, b with
  | x :: a', y :: b' =>
      ct_accumulate (N.lor acc (N.lxor (N_of_ascii x) (N_of_ascii y))) a' b'
  | _, _ => acc
  end.

(** [crypto.timingSafeEqual(a, b)]. [None] is the [RangeError] it throws
    when the two buffers differ in length. *)
Definition timingSafeEqual (a b : list ascii) : option bool :=
  if Nat.eqb (List.length a) (List.length b)
  then Some (N.eqb (ct_accumulate 0 a b) 0)
  else None.

(** ** The pipeline state *)

Section Pipeline.
Context `{Platform}.

(** Modelled from the spec: the webhook secret that the metadata store
    owns, as [sqliteService.getWebhookConfig()] of [src/lib/sqlite] (not
    among the sources) returns it. *)
Record WebhookConfig := {
  macSecretBase64 : string;
}.

(** The message posted to the worker. *)
Inductive WorkerMessage :=
| WEBHOOK_RECEIVED (payload : value).

(** Modelled from the spec: the idempotency ledger of the metadata store
    ([sqliteService.isWebhookProcessed] and
    [sqliteService.markWebhookProcessed] of [src/lib/sqlite], which is not
    among the sources). A marker is durable: a key, once marked, stays
    marked. The marker keeps the mode and the metadata that the handler
    passes. *)
Record Marker := {
  marker_mode : string;
  marker_timestamp : option value;
  marker_webhookId : option value;
}.

Record State := {
  (** [let lastProcessedTime = 0], the module variable of the rate limiter. *)
  lastProcessedTime : Z;
  (** The webhook configuration of the metadata database, when there is one. *)
  webhookConfig : option WebhookConfig;
  (** The idempotency ledger of the metadata database. *)
  processed : gmap string Marker;
  (** [store.worker]: [None] when there is no worker, and otherwise the
      messages posted to it so far, oldest first. *)
  worker : option (list WorkerMessage);
}.

(** Modelled from the spec: [isWebhookProcessed(key)] tells whether the
    ledger holds a marker for the key. *)
Definition isWebhookProcessed (key : string) (m : gmap string Marker) : bool :=
  match m !! key with Some _ => true | None => false end.

(** Modelled from the spec: [markWebhookProcessed(key, mode, metadata)]
    records a marker for the key. *)
Definition markWebhookProcessed (key : string) (mk : Marker)
    (m : gmap string Marker) : gmap string Marker :=
  <[key := mk]> m.

(** The state at process start, for a given metadata database and worker. *)
Definition initial_state (cfg : option WebhookConfig) (ledger : gmap string Marker)
    (w : option (list WorkerMessage)) : State :=
  {| lastProcessedTime := 0; webhookConfig := cfg; processed := ledger; worker := w |}.

(** ** Requests, responses and the trace of operations *)

Record Request := {
  (** [await request.text()]: the exact bytes received. *)
  rawBody : string;
  (** [request.headers.get("x-airtable-content-mac")]; [None] is [null]. *)
  content_mac : option string;
}.

(** The three readings of [Date.now()] that one run of the handler makes:
    in the timestamp validation, in the rate limiter, and when it updates
    the rate limit tracker. *)
Record Clock := {
  now_freshness : Z;
  now_ratelimit : Z;
  now_accept : Z;
}.

(** The objects that the handler returns. *)
Inductive ResponseBody :=
| ErrorBody (error : string)                   (* { error, backend: "sqlite" } *)
| RateLimitBody (error : string) (retryAfter : Z)  (* { error, retryAfter } *)
| StatusBody (status : string)                 (* { status } *)
| SkippedBody (status reason : string).        (* { status, reason } *)

(** A response: [set.status] (200 unless the handler sets it) and the
    returned object. *)
Record Response := {
  http_status : Z;
  response_body : ResponseBody;
}.

(** The steps of the handler, in the order of the specification. *)
Inductive Stage :=
| SParse | SProbe | SSignature | SFreshness | SRateLimit | SIdempotency | SForward.

(** The operations that the handler performs, each one a call or an
    assignment of the source. [EvNow] tells which of the three calls of
    [Date.now()] it is, by the step that makes it. *)
Inductive Event :=
| EvReadBody                                  (* request.text() *)
| EvJsonParse (text : string)                 (* JSON.parse(rawBody) *)
| EvIsPing                                    (* isPing(body) *)
| EvGetHeader                                 (* request.headers.get(...) *)
| EvGetWebhookConfig                          (* sqliteService.getWebhookConfig() *)
| EvHmac (secret body : string)               (* calculateWebhookHmac(...) *)
| EvCompareLength (expected provided : nat)   (* expectedBuf.length !== providedBuf.length *)
| EvTimingSafeEqual                           (* timingSafeEqual(...) *)
| EvReadTimestamp                             (* body.timestamp *)
| EvNow (stage : Stage) (t : Z)               (* Date.now() *)
| EvReadLastProcessed (t : Z)                 (* reading lastProcessedTime *)
| EvReadWebhookId                             (* body.webhook?.id *)
| EvIsProcessed (key : string)                (* sqliteService.isWebhookProcessed(key) *)
| EvGetWorker                                 (* store.worker *)
| EvSetLastProcessed (t : Z)                  (* lastProcessedTime = Date.now() *)
| EvMark (key : string)                       (* sqliteService.markWebhookProcessed(...) *)
| EvPostMessage (m : WorkerMessage).          (* worker.postMessage(...) *)

(** ** The handler monad *)

(** How a computation ends: with a value, by returning a response from the
    handler, or by throwing. *)
Inductive Res (A : Type) :=
| Next (a : A)
| Return (r : Response)
| Raise (err : string).
Arguments Next {A} a.
Arguments Return {A} r.
Arguments Raise {A} err.

Definition M (A : Type) : Type := State * list Event -> Res A * (State * list Event).

Definition ret {A} (a : A) : M A := fun s => (Next a, s).

Definition bind {A B} (m : M A) (k : A -> M B) : M B :=
  fun s =>
    match m s with
    | (Next a, s') => k a s'
    | (Return r, s') => (Return r, s')
    | (Raise e, s') => (Raise e, s')
    end.

(** [set.status = code; return body]. *)
Definition respond {A} (code : Z) (body : ResponseBody) : M A :=
  fun s => (Return {| http_status := code; response_body := body |}, s).

Definition raise {A} (err : string) : M A := fun s => (Raise err, s).

Definition emit (e : Event) : M unit := fun '(st, tr) => (Next tt, (st, tr ++ [e])).

Definition get : M State := fun '(st, tr) => (Next st, (st, tr)).

Definition put (st : State) : M unit := fun '(_, tr) => (Next tt, (st, tr)).

End Pipeline.

Arguments Next {A} a.
Arguments Return {A} r.
Arguments Raise {A} err.

Notation "x <- m ;; k" := (bind m (fun x => k))
  (at level 100, m at next level, right associativity).
Notation "m ;; k" := (bind m (fun _ => k))
  (at level 100, right associativity).

(** ** The handler of [POST /webhooks/airtable/refresh] *)

(** [Math.ceil(ms / 1000)] on an integer number of milliseconds. *)
Definition ceil_seconds (ms : Z) : Z := (- ((- ms) / 1000))%Z.

Section Handler.
Context `{Platform}.
Variable config : Config.

(** *** The operations *)

Definition request_text (req : Request) : M string :=
  emit EvReadBody ;; ret (rawBody req).

Definition headers_get_content_mac (req : Request) : M (option string) :=
  emit EvGetHeader ;; ret (content_mac req).

Definition getWebhookConfig : M (option WebhookConfig) :=
  emit EvGetWebhookConfig ;; st <- get ;; ret (webhookConfig st).

Definition hmac (secret body : string) : M string :=
  emit (EvHmac secret body) ;; ret (calculateWebhookHmac secret body).

Definition compare_length (a b : list ascii) : M bool :=
  emit (EvCompareLength (List.length a) (List.length b)) ;;
  ret (Nat.eqb (List.length a) (List.length b)).

Definition call_timingSafeEqual (a b : list ascii) : M bool :=
  emit EvTimingSafeEqual ;;
  match timingSafeEqual a b with
  | Some r => ret r
  | None => raise "RangeError"
  end.

Definition Date_now (stage : Stage) (t : Z) : M Z :=
  emit (EvNow stage t) ;; ret t.

Definition read_lastProcessedTime : M Z :=
  st <- get ;; emit (EvReadLastProcessed (lastProcessedTime st)) ;;
  ret (lastProcessedTime st).

Definition write_lastProcessedTime (t : Z) : M unit :=
  st <- get ;;
  emit (EvSetLastProcessed t) ;;
  put {| lastProcessedTime := t; webhookConfig := webhookConfig st;
         processed := processed st; worker := worker st |}.

Definition call_isWebhookProcessed (key : string) : M bool :=
  emit (EvIsProcessed key) ;; st <- get ;; ret (isWebhookProcessed key (processed st)).

Definition call_markWebhookProcessed (key : string) (mk : Marker) : M unit :=
  st <- get ;;
  emit (EvMark key) ;;
  put {| lastProcessedTime := lastProcessedTime st; webhookConfig := webhookConfig st;
         processed := markWebhookProcessed key mk (processed st); worker := worker st |}.

Definition store_worker : M (option (list WorkerMessage)) :=
  emit EvGetWorker ;; st <- get ;; ret (worker st).

(** [worker.postMessage(m)] on the worker read from the store. *)
Definition postMessage (m : WorkerMessage) : M unit :=
  st <- get ;;
  emit (EvPostMessage m) ;;
  put {| lastProcessedTime := lastProcessedTime st; webhookConfig := webhookConfig st;
         processed := processed st;
         worker := match worker st with
                   | Some inbox => Some (inbox ++ [m])
                   | None => None
                   end |}.

(** *** The steps *)

(** Steps 1 and 2: read the raw body and parse it. *)
Definition stage_parse (req : Request) : M (string * value) :=
  raw <- request_text req ;;
  emit (EvJsonParse raw) ;;
  match JSON_parse raw with
  | None => respond 400 (ErrorBody "Invalid JSON payload")
  | Some body => ret (raw, body)
  end.

(** Step 3: ping detection. *)
Definition stage_probe (body : value) : M unit :=
  emit EvIsPing ;;
  match isPing body with
  | None => raise "TypeError"
  | Some true => respond 200 (StatusBody "success")
  | Some false => ret tt
  end.

(** [`hmac-sha256=${expectedHash}`]. *)
Definition expectedSignature (secret raw : string) : string :=
  "hmac-sha256=" +:+ calculateWebhookHmac secret raw.

(** Step 4: HMAC signature validation. *)
Definition stage_signature (req : Request) (raw : string) : M unit :=
  signatureHeader <- headers_get_content_mac req ;;
  match signatureHeader with
  | None | Some EmptyString => respond 401 (ErrorBody "Missing signature header")
  | Some signatureHeader =>
      webhookConfig <- getWebhookConfig ;;
      match webhookConfig with
      | None => respond 500 (ErrorBody "Webhook not configured")
      | Some webhookConfig =>
          expectedHash <- hmac (macSecretBase64 webhookConfig) raw ;;
          let expectedBuf := Buffer_from ("hmac-sha256=" +:+ expectedHash) in
          let providedBuf := Buffer_from signatureHeader in
          same_length <- compare_length expectedBuf providedBuf ;;
          if negb same_length
          then respond 401 (ErrorBody "Invalid signature")
          else
            equal <- call_timingSafeEqual expectedBuf providedBuf ;;
            if negb equal
            then respond 401 (ErrorBody "Invalid signature")
            else ret tt
      end
  end.

(** Step 5: timestamp validation. The step yields [body.timestamp], which
    the idempotency key uses. *)
Definition stage_freshness (clk : Clock) (body : value) : M (option value) :=
  emit EvReadTimestamp ;;
  let timestamp := get_prop "timestamp" body in
  match timestamp with
  | Some ts =>
      if truthy timestamp then
        match Date_getTime ts with
        | None => raise "TypeError"
        | Some webhookTime =>
            now <- Date_now SFreshness (now_freshness clk) ;;
            let windowMs := (webhookTimestampWindow config * 1000)%Z in
            match webhookTime with
            | None => respond 401 (ErrorBody "Expired timestamp")
            | Some webhookTime =>
                if (windowMs <? Z.abs (now - webhookTime))%Z
                then respond 401 (ErrorBody "Expired timestamp")
                else ret timestamp
            end
        end
      else ret timestamp
  | None => ret timestamp
  end.

(** Step 6: rate limiting. *)
Definition stage_ratelimit (clk : Clock) : M unit :=
  now <- Date_now SRateLimit (now_ratelimit clk) ;;
  let rateLimitMs := (webhookRateLimit config * 1000)%Z in
  last <- read_lastProcessedTime ;;
  let timeSinceLastProcess := (now - last)%Z in
  if (0 <? last)%Z && (timeSinceLastProcess <? rateLimitMs)%Z
  then
    let retryAfter := ceil_seconds (rateLimitMs - timeSinceLastProcess) in
    respond 429 (RateLimitBody "Rate limit exceeded" retryAfter)
  else ret tt.

(** [`${webhookId}:${timestamp}`]; [None] is the [TypeError] that the
    conversion of one of the two values throws. *)
Definition idempotencyKey (webhookId timestamp : option value) : option string :=
  match template webhookId, template timestamp with
  | Some id, Some ts => Some (id +:+ ":" +:+ ts)
  | _, _ => None
  end.

(** [(body.webhook)?.id]. *)
Definition webhookId_of (body : value) : option value :=
  get_prop_opt "id" (get_prop "webhook" body).

(** Step 7: idempotency check. The step yields the webhook identifier and
    the key. *)
Definition stage_idempotency (body : value) (timestamp : option value)
    : M (option value * string) :=
  emit EvReadWebhookId ;;
  let webhookId := webhookId_of body in
  match idempotencyKey webhookId timestamp with
  | None => raise "TypeError"
  | Some key =>
      alreadyProcessed <- call_isWebhookProcessed key ;;
      if alreadyProcessed
      then respond 200 (SkippedBody "skipped" "Already processed")
      else ret (webhookId, key)
  end.

(** Step 8: forward to the worker. *)
Definition stage_forward (clk : Clock) (body : value) (timestamp webhookId : option value)
    (key : string) : M Empty_set :=
  worker <- store_worker ;;
  match worker with
  | None => respond 503 (ErrorBody "Worker service unavailable")
  | Some _ =>
      now <- Date_now SForward (now_accept clk) ;;
      write_lastProcessedTime now ;;
      call_markWebhookProcessed key
        {| marker_mode := "incremental"; marker_timestamp := timestamp;
           marker_webhookId := webhookId |} ;;
      postMessage (WEBHOOK_RECEIVED body) ;;
      respond 200 (StatusBody "success")
  end.

(** *** The handler *)

Definition pipeline (req : Request) (clk : Clock) : M Empty_set :=
  parsed <- stage_parse req ;;
  let '(raw, body) := parsed in
  stage_probe body ;;
  stage_signature req raw ;;
  timestamp <- stage_freshness clk body ;;
  stage_ratelimit clk ;;
  checked <- stage_idempotency body timestamp ;;
  let '(webhookId, key) := checked in
  stage_forward clk body timestamp webhookId key.

(** How one run of the handler ends. *)
Inductive Outcome :=
| Responded (r : Response)
| Threw (err : string).

(** One run of the handler on a request, from a state: the outcome, the
    state it leaves and the operations it performed, in order. *)
Definition handler (req : Request) (clk : Clock) (st : State)
    : Outcome * State * list Event :=
  match pipeline req clk (st, []) with
  | (Return r, (st', tr)) => (Responded r, st', tr)
  | (Raise e, (st', tr)) => (Threw e, st', tr)
  | (Next v, _) => match v with end
  end.

End Handler.

(** ** Runs of several requests *)

Section Runs.
Context `{Platform}.
Variable config : Config.

(** The handler applied to the requests in turn, each with its clock
    readings: the outcome and the trace of each run, and the final
    state. *)
Fixpoint run (reqs : list (Request * Clock)) (st : State)
    : list (Outcome * list Event) * State :=
  match reqs with
  | [] => ([], st)
  | (req, clk) :: rest =>
      let '(out, st', tr) := handler config req clk st in
      let '(outs, final) := run rest st' in
      ((out, tr) :: outs, final)
  end.

End Runs.

(** ** Reading outcomes and traces *)

(** The rejections of the pipeline. *)
Inductive Rejection :=
| MalformedInput
| Unauthorized
| RateLimited
| AlreadyProcessed
| ConfigurationMissing
| WorkerUnavailable.

(** The rejection that a response reports, if it is one: the status code
    tells, and for status 200 the [skipped] body. *)
Definition rejection_of (r : Response) : option Rejection :=
  match http_status r, response_body r with
  | 400%Z, _ => Some MalformedInput
  | 401%Z, _ => Some Unauthorized
  | 429%Z, _ => Some RateLimited
  | 500%Z, _ => Some ConfigurationMissing
  | 503%Z, _ => Some WorkerUnavailable
  | 200%Z, SkippedBody _ _ => Some AlreadyProcessed
  | _, _ => None
  end.

(** The acknowledgement [{ status: "success" }], which both a probe and an
    accepted notification receive. *)
Definition success : Response :=
  {| http_status := 200; response_body := StatusBody "success" |}.

(** The acknowledgement of a duplicate. *)
Definition already_processed : Response :=
  {| http_status := 200; response_body := SkippedBody "skipped" "Already processed" |}.

Definition error_response (code : Z) (msg : string) : Response :=
  {| http_status := code; response_body := ErrorBody msg |}.

Section Traces.
Context `{Platform}.

(** The step that performs an operation. *)
Definition stage_of (e : Event) : Stage :=
  match e with
  | EvReadBody | EvJsonParse _ => SParse
  | EvIsPing => SProbe
  | EvGetHeader | EvGetWebhookConfig | EvHmac _ _ | EvCompareLength _ _
  | EvTimingSafeEqual => SSignature
  | EvReadTimestamp => SFreshness
  | EvNow s _ => s
  | EvReadLastProcessed _ => SRateLimit
  | EvReadWebhookId | EvIsProcessed _ => SIdempotency
  | EvGetWorker | EvSetLastProcessed _ | EvMark _ | EvPostMessage _ => SForward
  end.

Definition is_post (e : Event) : bool :=
  match e with EvPostMessage _ => true | _ => false end.

(** A run forwards when it posts a message to the worker. *)
Definition forwards (tr : list Event) : bool := existsb is_post tr.

(** A run reaches the idempotency step when it looks a key up in the
    ledger. *)
Definition is_lookup (e : Event) : bool :=
  match e with EvIsProcessed _ => true | _ => false end.

Definition looks_up (tr : list Event) : bool := existsb is_lookup tr.

(** The operations that change the pipeline state: the assignment to
    [lastProcessedTime], the marker and the message. *)
Definition mutates (e : Event) : bool :=
  match e with
  | EvSetLastProcessed _ | EvMark _ | EvPostMessage _ => true
  | _ => false
  end.

(** The steps in the order of the specification. *)
Definition pipeline_order : list Stage :=
  [SParse; SProbe; SSignature; SFreshness; SRateLimit; SIdempotency; SForward].

Definition stage_index (s : Stage) : nat :=
  match s with
  | SParse => 0 | SProbe => 1 | SSignature => 2 | SFreshness => 3
  | SRateLimit => 4 | SIdempotency => 5 | SForward => 6
  end.

(** The steps from the first one up to and including [s]. *)
Definition stages_through (s : Stage) : list Stage :=
  firstn (S (stage_index s)) pipeline_order.

Definition Stage_eqb (a b : Stage) : bool := Nat.eqb (stage_index a) (stage_index b).

(** A list of steps without its repetitions of one step in a row. *)
Fixpoint squeeze (l : list Stage) : list Stage :=
  match l with
  | [] => []
  | a :: rest =>
      match rest with
      | b :: _ => if Stage_eqb a b then squeeze rest else a :: squeeze rest
      | [] => [a]
      end
  end.

(** The steps that a run went through, in the order in which it entered
    them. *)
Definition stages_run (tr : list Event) : list Stage := squeeze (map stage_of tr).

End Traces.

(** ** The decisions of the steps and the operations they perform *)

Section Verdicts.
Context `{Platform}.
Variable config : Config.

(** The operations of the signature step up to the comparison of the
    lengths. *)
Definition trace_compare (secret raw signatureHeader : string) : list Event :=
  [EvGetHeader; EvGetWebhookConfig; EvHmac secret raw;
   EvCompareLength (List.length (Buffer_from (expectedSignature secret raw)))
                   (List.length (Buffer_from signatureHeader))].

(** The timestamp validation throws: the timestamp passes [if (timestamp)]
    and [new Date(timestamp)] throws. *)
Definition timestamp_throws (body : value) : bool :=
  match get_prop "timestamp" body with
  | Some ts =>
      truthy (Some ts) && match Date_getTime ts with None => true | Some _ => false end
  | None => false
  end.

(** [Number.isNaN(webhookTime) || Math.abs(now - webhookTime) > windowMs],
    for a timestamp that [new Date] converts. *)
Definition expired (clk : Clock) (ts : value) : bool :=
  match Date_getTime ts with
  | None => false
  | Some None => true
  | Some (Some webhookTime) =>
      (webhookTimestampWindow config * 1000 <? Z.abs (now_freshness clk - webhookTime))%Z
  end.

(** The timestamp validation rejects: the timestamp passes [if (timestamp)]
    and is expired. *)
Definition stale (clk : Clock) (body : value) : bool :=
  match get_prop "timestamp" body with
  | Some ts => truthy (Some ts) && expired clk ts
  | None => false
  end.

(** The operations of the timestamp validation. *)
Definition trace_timestamp (clk : Clock) (body : value) : list Event :=
  EvReadTimestamp ::
  (if truthy (get_prop "timestamp" body) then [EvNow SFreshness (now_freshness clk)] else []).

(** [lastProcessedTime > 0 && timeSinceLastProcess < rateLimitMs]. *)
Definition rate_limited (clk : Clock) (st : State) : bool :=
  (0 <? lastProcessedTime st)%Z
  && (now_ratelimit clk - lastProcessedTime st <? webhookRateLimit config * 1000)%Z.

(** [Math.ceil((rateLimitMs - timeSinceLastProcess) / 1000)]. *)
Definition retry_after (clk : Clock) (st : State) : Z :=
  ceil_seconds (webhookRateLimit config * 1000 - (now_ratelimit clk - lastProcessedTime st)).

Definition rate_limit_response (clk : Clock) (st : State) : Response :=
  {| http_status := 429;
     response_body := RateLimitBody "Rate limit exceeded" (retry_after clk st) |}.

Definition trace_rate (clk : Clock) (st : State) : list Event :=
  [EvNow SRateLimit (now_ratelimit clk); EvReadLastProcessed (lastProcessedTime st)].

(** The template literal of the key throws. *)
Definition key_throws (body : value) : bool :=
  match idempotencyKey (webhookId_of body) (get_prop "timestamp" body) with
  | None => true
  | Some _ => false
  end.

(** The idempotency key of a body, when the template literal does not
    throw. *)
Definition key_of (body : value) : string :=
  match idempotencyKey (webhookId_of body) (get_prop "timestamp" body) with
  | Some key => key
  | None => EmptyString
  end.

(** The marker that the handler records for a body. *)
Definition marker_of (body : value) : Marker :=
  {| marker_mode := "incremental"; marker_timestamp := get_prop "timestamp" body;
     marker_webhookId := webhookId_of body |}.

(** The state after the handler has accepted a body, when the worker had
    received [inbox]. *)
Definition accepted_state (clk : Clock) (body : value) (st : State)
    (inbox : list WorkerMessage) : State :=
  {| lastProcessedTime := now_accept clk;
     webhookConfig := webhookConfig st;
     processed := markWebhookProcessed (key_of body) (marker_of body) (processed st);
     worker := Some (inbox ++ [WEBHOOK_RECEIVED body]) |}.

(** The operations of an accepting forward step, after it has read the
    worker. *)
Definition trace_accept (clk : Clock) (body : value) : list Event :=
  [EvNow SForward (now_accept clk); EvSetLastProcessed (now_accept clk);
   EvMark (key_of body); EvPostMessage (WEBHOOK_RECEIVED body)].

End Verdicts.

(** ** The paths of the handler

    One rule per way through the handler: what the request and the state
    must satisfy, and the outcome, the state and the trace that result. *)

Section Paths.
Context `{Platform}.
Variable config : Config.
Variable req : Request.
Variable clk : Clock.
Variable st : State.

(** The operations up to and including the ping detection. *)
Definition trace_probe : list Event :=
  [EvReadBody; EvJsonParse (rawBody req); EvIsPing].

(** The operations up to and including the constant-time comparison. *)
Definition trace_signature (c : WebhookConfig) (signatureHeader : string) : list Event :=
  trace_probe ++ trace_compare (macSecretBase64 c) (rawBody req) signatureHeader
  ++ [EvTimingSafeEqual].

(** The operations up to and including each later step, for a request
    with the expected signature. *)
Definition trace_freshness (c : WebhookConfig) (body : value) : list Event :=
  trace_signature c (expectedSignature (macSecretBase64 c) (rawBody req))
  ++ trace_timestamp clk body.

Definition trace_ratelimit (c : WebhookConfig) (body : value) : list Event :=
  trace_freshness c body ++ trace_rate clk st.

Definition trace_idempotency (c : WebhookConfig) (body : value) : list Event :=
  trace_ratelimit c body ++ [EvReadWebhookId; EvIsProcessed (key_of body)].

Definition trace_forward (c : WebhookConfig) (body : value) : list Event :=
  trace_idempotency c body ++ [EvGetWorker].

(** The body parses and is not a ping: the signature step is reached. *)
Definition reaches_signature (body : value) : Prop :=
  JSON_parse (rawBody req) = Some body /\ isPing body = Some false.

(** There are a signature header and a webhook configuration: the
    comparison is reached. *)
Definition reaches_comparison (body : value) (c : WebhookConfig)
    (signatureHeader : string) : Prop :=
  reaches_signature body
  /\ content_mac req = Some signatureHeader /\ signatureHeader <> EmptyString
  /\ webhookConfig st = Some c.

(** The header is the expected signature: the timestamp validation is
    reached. *)
Definition reaches_freshness (body : value) (c : WebhookConfig) : Prop :=
  reaches_comparison body c (expectedSignature (macSecretBase64 c) (rawBody req)).

(** The timestamp converts, or there is none: the test of the window is
    reached. *)
Definition reaches_window (body : value) (c : WebhookConfig) : Prop :=
  reaches_freshness body c /\ timestamp_throws body = false.

Definition reaches_ratelimit (body : value) (c : WebhookConfig) : Prop :=
  reaches_window body c /\ stale config clk body = false.

Definition reaches_idempotency (body : value) (c : WebhookConfig) : Prop :=
  reaches_ratelimit body c /\ rate_limited config clk st = false.

(** The key is built: the ledger is consulted. *)
Definition reaches_lookup (body : value) (c : WebhookConfig) : Prop :=
  reaches_idempotency body c /\ key_throws body = false.

Definition reaches_forward (body : value) (c : WebhookConfig) : Prop :=
  reaches_lookup body c /\ isWebhookProcessed (key_of body) (processed st) = false.

Inductive Run : Outcome -> State -> list Event -> Prop :=
| Run_malformed :
    JSON_parse (rawBody req) = None ->
    Run (Responded (error_response 400 "Invalid JSON payload")) st
        [EvReadBody; EvJsonParse (rawBody req)]
| Run_type_error body :
    JSON_parse (rawBody req) = Some body -> isPing body = None ->
    Run (Threw "TypeError") st trace_probe
| Run_ping body :
    JSON_parse (rawBody req) = Some body -> isPing body = Some true ->
    Run (Responded success) st trace_probe
| Run_missing_header body :
    reaches_signature body ->
    content_mac req = None \/ content_mac req = Some EmptyString ->
    Run (Responded (error_response 401 "Missing signature header")) st
        (trace_probe ++ [EvGetHeader])
| Run_not_configured body signatureHeader :
    reaches_signature body ->
    content_mac req = Some signatureHeader -> signatureHeader <> EmptyString ->
    webhookConfig st = None ->
    Run (Responded (error_response 500 "Webhook not configured")) st
        (trace_probe ++ [EvGetHeader; EvGetWebhookConfig])
| Run_wrong_length body c signatureHeader :
    reaches_comparison body c signatureHeader ->
    List.length (Buffer_from (expectedSignature (macSecretBase64 c) (rawBody req)))
    <> List.length (Buffer_from signatureHeader) ->
    Run (Responded (error_response 401 "Invalid signature")) st
        (trace_probe ++ trace_compare (macSecretBase64 c) (rawBody req) signatureHeader)
| Run_wrong_signature body c signatureHeader :
    reaches_comparison body c signatureHeader ->
    List.length (Buffer_from (expectedSignature (macSecretBase64 c) (rawBody req)))
    = List.length (Buffer_from signatureHeader) ->
    signatureHeader <> expectedSignature (macSecretBase64 c) (rawBody req) ->
    Run (Responded (error_response 401 "Invalid signature")) st
        (trace_signature c signatureHeader)
| Run_timestamp_throws body c :
    reaches_freshness body c -> timestamp_throws body = true ->
    Run (Threw "TypeError") st
        (trace_signature c (expectedSignature (macSecretBase64 c) (rawBody req))
         ++ [EvReadTimestamp])
| Run_expired body c :
    reaches_window body c -> stale config clk body = true ->
    Run (Responded (error_response 401 "Expired timestamp")) st (trace_freshness c body)
| Run_rate_limited body c :
    reaches_ratelimit body c -> rate_limited config clk st = true ->
    Run (Responded (rate_limit_response config clk st)) st (trace_ratelimit c body)
| Run_key_throws body c :
    reaches_idempotency body c -> key_throws body = true ->
    Run (Threw "TypeError") st (trace_ratelimit c body ++ [EvReadWebhookId])
| Run_skipped body c :
    reaches_lookup body c ->
    isWebhookProcessed (key_of body) (processed st) = true ->
    Run (Responded already_processed) st (trace_idempotency c body)
| Run_unavailable body c :
    reaches_forward body c -> worker st = None ->
    Run (Responded (error_response 503 "Worker service unavailable")) st
        (trace_forward c body)
| Run_accepted body c inbox :
    reaches_forward body c -> worker st = Some inbox ->
    Run (Responded success) (accepted_state clk body st inbox)
        (trace_forward c body ++ trace_accept clk body).

End Paths.

(** ** The pipeline as a chain of checks

    The pipeline as the specification describes it: an ordered chain of
    steps, each of which either lets the notification pass to the next one
    or ends the run with an outcome. Each check is the test that the
    handler makes at that step, as a function of the request, the clock
    and the state. *)

Inductive Verdict :=
| Pass
| Stop (out : Outcome).

Section Chain.
Context `{Platform}.
Variable config : Config.
Variable req : Request.
Variable clk : Clock.
Variable st : State.

(** Ping detection: a ping is acknowledged, and [in] throws on a
    primitive. *)
Definition check_probe (body : value) : Verdict :=
  match isPing body with
  | None => Stop (Threw "TypeError")
  | Some true => Stop (Responded success)
  | Some false => Pass
  end.

(** Signature validation: a header, a webhook configuration, and a header
    that is the expected signature. *)
Definition check_signature : Verdict :=
  match content_mac req with
  | None | Some EmptyString =>
      Stop (Responded (error_response 401 "Missing signature header"))
  | Some signatureHeader =>
      match webhookConfig st with
      | None => Stop (Responded (error_response 500 "Webhook not configured"))
      | Some c =>
          if String.eqb signatureHeader
               (expectedSignature (macSecretBase64 c) (rawBody req))
          then Pass
          else Stop (Responded (error_response 401 "Invalid signature"))
      end
  end.

(** Timestamp validation. *)
Definition check_freshness (body : value) : Verdict :=
  if timestamp_throws body then Stop (Threw "TypeError")
  else if stale config clk body
  then Stop (Responded (error_response 401 "Expired timestamp"))
  else Pass.

(** Rate limiting. *)
Definition check_ratelimit : Verdict :=
  if rate_limited config clk st
  then Stop (Responded (rate_limit_response config clk st))
  else Pass.

(** Idempotency check. *)
Definition check_idempotency (body : value) : Verdict :=
  if key_throws body then Stop (Threw "TypeError")
  else if isWebhookProcessed (key_of body) (processed st)
  then Stop (Responded already_processed)
  else Pass.

(** Forward: the last step always ends the run. *)
Definition check_forward : Verdict :=
  match worker st with
  | None => Stop (Responded (error_response 503 "Worker service unavailable"))
  | Some _ => Stop (Responded success)
  end.

(** The checks in the order of the steps. An unparseable payload has no
    envelope for the later steps to check. *)
Definition checks : list (Stage * Verdict) :=
  match JSON_parse (rawBody req) with
  | None => [(SParse, Stop (Responded (error_response 400 "Invalid JSON payload")))]
  | Some body =>
      [(SParse, Pass); (SProbe, check_probe body); (SSignature, check_signature);
       (SFreshness, check_freshness body); (SRateLimit, check_ratelimit);
       (SIdempotency, check_idempotency body); (SForward, check_forward)]
  end.

End Chain.

(** The first check of a chain that does not pass: every check before it
    passes, and it ends the run with its outcome. *)
Fixpoint first_stop (chain : list (Stage * Verdict)) : option (Stage * Outcome) :=
  match chain with
  | [] => None
  | (s, Pass) :: rest => first_stop rest
  | (s, Stop out) :: _ => Some (s, out)
  end.

(** ** The token comparison of [src/api/middleware/auth.ts]

    The bearer middleware compares the presented token with the configured
    one. It pads both to the same length and always runs
    [timingSafeEqual]; the lengths are only compared afterwards. *)

(** [paddedX = new Uint8Array(maxLen); paddedX.set(bytes)]. *)
Definition pad_to (n : nat) (bytes : list ascii) : list ascii :=
  bytes ++ repeat zero (n - List.length bytes).

Inductive AuthResult :=
| User (name : string)
| AuthError (code : Z) (message : string).

(** The [derive] function of [bearerAuth], with the calls it makes to
    [timingSafeEqual] (their number). *)
Definition bearerAuth (authDisabled : bool) (bearerToken : string) (bearer : option string)
    : AuthResult * nat :=
  if authDisabled then (User "anonymous", 0)
  else
    match bearer with
    | None | Some EmptyString => (AuthError 401 "Unauthorized", 0)
    | Some bearer =>
        let expectedBytes := Buffer_from bearerToken in
        let providedBytes := Buffer_from bearer in
        let maxLen := Nat.max (List.length expectedBytes) (List.length providedBytes) in
        let paddedExpected := pad_to maxLen expectedBytes in
        let paddedProvided := pad_to maxLen providedBytes in
        match timingSafeEqual paddedExpected paddedProvided with
        | None => (AuthError 500 "RangeError", 1)
        | Some isValid =>
            if negb (Nat.eqb (List.length expectedBytes) (List.length providedBytes))
               || negb isValid
            then (AuthError 401 "Unauthorized", 1)
            else (User "authenticated", 1)
        end
    end.

(** ** A sample platform

    A platform on which the handler can be run: it agrees with JavaScript
    on the texts below and rejects every other text. Its
    [calculateWebhookHmac] is a stand-in that is injective in the body. *)

Module Sample.

Definition quote : string := String "034"%char EmptyString.

Definition quoted (s : string) : string := quote +:+ s +:+ quote.

(** [{}] *)
Definition text_ping : string := "{}".

(** [null] *)
Definition text_null : string := "null".

(** [{"webhook":{"id":"ach1"},"timestamp":"2024-01-01T00:00:00.000Z"}] *)
Definition text_notification : string :=
  "{" +:+ quoted "webhook" +:+ ":{" +:+ quoted "id" +:+ ":" +:+ quoted "ach1" +:+ "},"
  +:+ quoted "timestamp" +:+ ":" +:+ quoted "2024-01-01T00:00:00.000Z" +:+ "}".

(** [{"webhook":{"id":"ach1"},"timestamp":"2024-01-01T00:00:00.000Z","n":2}]:
    another body with the same identifier and timestamp. *)
Definition text_notification' : string :=
  "{" +:+ quoted "webhook" +:+ ":{" +:+ quoted "id" +:+ ":" +:+ quoted "ach1" +:+ "},"
  +:+ quoted "timestamp" +:+ ":" +:+ quoted "2024-01-01T00:00:00.000Z" +:+ ","
  +:+ quoted "n" +:+ ":2}".

(** [{"webhook":{"id":"ach1"}}] *)
Definition text_no_timestamp : string :=
  "{" +:+ quoted "webhook" +:+ ":{" +:+ quoted "id" +:+ ":" +:+ quoted "ach1" +:+ "}}".

(** [{"webhook":{"id":"ach1"},"timestamp":"yesterday"}] *)
Definition text_bad_timestamp : string :=
  "{" +:+ quoted "webhook" +:+ ":{" +:+ quoted "id" +:+ ":" +:+ quoted "ach1" +:+ "},"
  +:+ quoted "timestamp" +:+ ":" +:+ quoted "yesterday" +:+ "}".

Definition webhook_field : string * json Z := ("webhook", JObj [("id", JStr "ach1")]).

Definition body_notification : json Z :=
  JObj [webhook_field; ("timestamp", JStr "2024-01-01T00:00:00.000Z")].

Definition body_notification' : json Z :=
  JObj [webhook_field; ("timestamp", JStr "2024-01-01T00:00:00.000Z"); ("n", JNum 2%Z)].

Definition parse (text : string) : option (json Z) :=
  if String.eqb text text_ping then Some (JObj [])
  else if String.eqb text text_null then Some JNull
  else if String.eqb text text_notification then Some body_notification
  else if String.eqb text text_notification' then Some body_notification'
  else if String.eqb text text_no_timestamp then Some (JObj [webhook_field])
  else if String.eqb text text_bad_timestamp
       then Some (JObj [webhook_field; ("timestamp", JStr "yesterday")])
  else None.

(** 2024-01-01T00:00:00.000Z, in milliseconds since the epoch. *)
Definition t0 : Z := 1704067200000.

Definition date_parse (text : string) : option Z :=
  if String.eqb text "2024-01-01T00:00:00.000Z" then Some t0 else None.

Definition mac (secret body : string) : string := secret +:+ "/" +:+ body.

#[export] Instance platform : Platform := {|
  number := Z;
  Number_truthy n := negb (Z.eqb n 0);
  Number_toString n := pretty n;
  Number_timeValue n := if (Z.abs n <=? 8640000000000000)%Z then Some n else None;
  JSON_parse := parse;
  Date_parse := date_parse;
  calculateWebhookHmac := mac;
|}.

(** A window of 300 seconds and a rate limit interval of 1 second
    (1000 ms). *)
Definition config : Config := {| webhookTimestampWindow := 300; webhookRateLimit := 1 |}.

Definition secret : WebhookConfig := {| macSecretBase64 := "czNjcjN0" |}.

(** The state at process start, with a secret, an empty ledger and a
    worker that has received nothing. *)
Definition start : State := initial_state (Some secret) ∅ (Some []).

(** A request with the signature of its own body. *)
Definition signed (text : string) : Request :=
  {| rawBody := text; content_mac := Some (expectedSignature "czNjcjN0" text) |}.

(** A clock that reads [t] three times. *)
Definition at_time (t : Z) : Clock :=
  {| now_freshness := t; now_ratelimit := t; now_accept := t |}.

End Sample.

(** ** Requests and states on the sample platform *)

Module Scenario.
Import Sample.

(** An unparseable payload. *)
Definition malformed : Request := {| rawBody := "{"; content_mac := None |}.

(** A ping without any header. *)
Definition ping : Request := {| rawBody := text_ping; content_mac := None |}.

(** The body [null]. *)
Definition null : Request := {| rawBody := text_null; content_mac := None |}.

(** The notification with a header that is shorter than a signature. *)
Definition short_header : Request :=
  {| rawBody := text_notification; content_mac := Some "hmac-sha256=" |}.

(** The notification with the signature of another body. *)
Definition other_signature : Request :=
  {| rawBody := text_notification;
     content_mac := Some (expectedSignature "czNjcjN0" text_notification') |}.

(** The state after the notification has been accepted at [t0 + 5]. *)
Definition accepted : State :=
  accepted_state (at_time (t0 + 5)) body_notification start [].

End Scenario.

(** ** The earlier token comparison

    The version of the bearer middleware before the padding was added
    (the file of [src/unnamed] that holds it): the lengths are compared
    first, and [timingSafeEqual] only runs on tokens of the same length. *)

Definition bearerAuth_v1 (authDisabled : bool) (bearerToken : string)
    (bearer : option string) : AuthResult * nat :=
  if authDisabled then (User "anonymous", 0)
  else
    match bearer with
    | None | Some EmptyString => (AuthError 401 "Unauthorized", 0)
    | Some bearer =>
        let expectedBuffer := Buffer_from bearerToken in
        let providedBuffer := Buffer_from bearer in
        if negb (Nat.eqb (List.length expectedBuffer) (List.length providedBuffer))
        then (AuthError 401 "Unauthorized", 0)
        else
          match timingSafeEqual expectedBuffer providedBuffer with
          | None => (AuthError 500 "RangeError", 1)
          | Some isValid =>
              if negb isValid
              then (AuthError 401 "Unauthorized", 1)
              else (User "authenticated", 1)
          end
    end.

(** ** The messages delivered to the worker *)

Section Delivery.
Context `{Platform}.

(** The values on which the [in] operator throws. *)
Definition is_primitive (body : value) : bool :=
  match body with
  | JObj _ | JArr _ => false
  | JNull | JBool _ | JNum _ | JStr _ => true
  end.

(** The idempotency key of the body that a message carries. *)
Definition message_key (m : WorkerMessage) : string :=
  match m with WEBHOOK_RECEIVED body => key_of body end.

(** The messages that a run posts, in order. *)
Definition posted (tr : list Event) : list WorkerMessage :=
  flat_map (fun e => match e with EvPostMessage m => [m] | _ => [] end) tr.

(** The messages that the worker has received carry different keys, and
    the ledger holds the key of each. *)
Definition delivered_once (st : State) : Prop :=
  match worker st with
  | Some inbox =>
      NoDup (map message_key inbox)
      /\ Forall (fun m => isWebhookProcessed (message_key m) (processed st) = true) inbox
  | None => True
  end.

(** The state with a worker that has received [inbox]. *)
Definition with_worker (inbox : list WorkerMessage) (st : State) : State :=
  {| lastProcessedTime := lastProcessedTime st; webhookConfig := webhookConfig st;
     processed := processed st; worker := Some inbox |}.

End Delivery.

(** ** A second sample platform

    The sample platform with three more texts: an array, a notification
    without webhook identifier, and one whose identifier is the string
    [undefined]. *)

Module Sample2.
Import Sample.

(** [[]] *)
Definition text_array : string := "[]".

(** [{"base":{"id":"app1"},"timestamp":"2024-01-01T00:00:00.000Z"}] *)
Definition text_no_id : string :=
  "{" +:+ quoted "base" +:+ ":{" +:+ quoted "id" +:+ ":" +:+ quoted "app1" +:+ "},"
  +:+ quoted "timestamp" +:+ ":" +:+ quoted "2024-01-01T00:00:00.000Z" +:+ "}".

(** [{"webhook":{"id":"undefined"},"timestamp":"2024-01-01T00:00:00.000Z"}] *)
Definition text_undefined_id : string :=
  "{" +:+ quoted "webhook" +:+ ":{" +:+ quoted "id" +:+ ":" +:+ quoted "undefined" +:+ "},"
  +:+ quoted "timestamp" +:+ ":" +:+ quoted "2024-01-01T00:00:00.000Z" +:+ "}".

Definition body_no_id : json Z :=
  JObj [("base", JObj [("id", JStr "app1")]);
        ("timestamp", JStr "2024-01-01T00:00:00.000Z")].

Definition body_undefined_id : json Z :=
  JObj [("webhook", JObj [("id", JStr "undefined")]);
        ("timestamp", JStr "2024-01-01T00:00:00.000Z")].

(** [{"webhook":{"id":"ach1"},"timestamp":EMPTY}], where [EMPTY] is the
    empty string literal. *)
Definition text_empty_timestamp : string :=
  "{" +:+ quoted "webhook" +:+ ":{" +:+ quoted "id" +:+ ":" +:+ quoted "ach1" +:+ "},"
  +:+ quoted "timestamp" +:+ ":" +:+ quoted EmptyString +:+ "}".

(** [{"webhook":{"id":"ach1"},"timestamp":{"toString":1}}] *)
Definition text_object_timestamp : string :=
  "{" +:+ quoted "webhook" +:+ ":{" +:+ quoted "id" +:+ ":" +:+ quoted "ach1" +:+ "},"
  +:+ quoted "timestamp" +:+ ":{" +:+ quoted "toString" +:+ ":1}}".

(** [{"webhook":{"id":{"toString":1}},"timestamp":"2024-01-01T00:00:00.000Z"}] *)
Definition text_object_id : string :=
  "{" +:+ quoted "webhook" +:+ ":{" +:+ quoted "id" +:+ ":{" +:+ quoted "toString"
  +:+ ":1}}," +:+ quoted "timestamp" +:+ ":" +:+ quoted "2024-01-01T00:00:00.000Z" +:+ "}".

Definition body_empty_timestamp : json Z :=
  JObj [webhook_field; ("timestamp", JStr EmptyString)].

Definition body_object_timestamp : json Z :=
  JObj [webhook_field; ("timestamp", JObj [("toString", JNum 1%Z)])].

Definition body_object_id : json Z :=
  JObj [("webhook", JObj [("id", JObj [("toString", JNum 1%Z)])]);
        ("timestamp", JStr "2024-01-01T00:00:00.000Z")].

Definition parse2 (text : string) : option (json Z) :=
  if String.eqb text text_array then Some (JArr [])
  else if String.eqb text text_no_id then Some body_no_id
  else if String.eqb text text_undefined_id then Some body_undefined_id
  else if String.eqb text text_empty_timestamp then Some body_empty_timestamp
  else if String.eqb text text_object_timestamp then Some body_object_timestamp
  else if String.eqb text text_object_id then Some body_object_id
  else parse text.

Definition platform2 : Platform := {|
  number := Z;
  Number_truthy n := negb (Z.eqb n 0);
  Number_toString n := pretty n;
  Number_timeValue n := if (Z.abs n <=? 8640000000000000)%Z then Some n else None;
  JSON_parse := parse2;
  Date_parse := date_parse;
  calculateWebhookHmac := mac;
|}.

(** The state at process start on this platform. *)
Definition start2 : @State platform2 :=
  @initial_state platform2 (Some secret) ∅ (Some []).

(** The state with a secret and without a worker. *)
Definition no_worker : @State platform2 :=
  @initial_state platform2 (Some secret) ∅ None.

(** The state without a webhook configuration. *)
Definition unconfigured : @State platform2 :=
  @initial_state platform2 None ∅ (Some []).

End Sample2.

(** * Properties *)

(** ** The constant-time comparison decides equality *)

Lemma N_of_ascii_inj (x y : ascii) : N_of_ascii x = N_of_ascii y -> x = y.
Proof.
  intros E. rewrite <- (ascii_N_embedding x), <- (ascii_N_embedding y). now rewrite E.
Qed.

Lemma ct_accumulate_zero (a : list ascii) :
  forall (b : list ascii) (acc : N),
    List.length a = List.length b ->
    ct_accumulate acc a b = 0%N <-> acc = 0%N /\ a = b.
Proof.
  induction a as [|x a IH]; intros [|y b] acc L; simpl in *; try discriminate.
  - intuition.
  - injection L as L. rewrite (IH b _ L), N.lor_eq_0_iff, N.lxor_eq_0_iff.
    split.
    + intros [[-> E] ->]. apply N_of_ascii_inj in E. now subst.
    + intros [-> E]. injection E as -> ->. auto.
Qed.

Lemma timingSafeEqual_spec (a b : list ascii) :
  List.length a = List.length b ->
  timingSafeEqual a b = Some (bool_decide (a = b)).
Proof.
  intros L. unfold timingSafeEqual. rewrite L, Nat.eqb_refl. f_equal.
  destruct (N.eqb_spec (ct_accumulate 0 a b) 0) as [E|E];
    rewrite (ct_accumulate_zero a b 0%N L) in E.
  - destruct E as [_ ->]. now rewrite bool_decide_eq_true_2.
  - rewrite bool_decide_eq_false_2; [reflexivity|]. intros ->. now apply E.
Qed.

Lemma Buffer_from_inj (s t : string) : Buffer_from s = Buffer_from t -> s = t.
Proof.
  unfold Buffer_from. intros E.
  rewrite <- (string_of_list_ascii_of_string s), <- (string_of_list_ascii_of_string t).
  now rewrite E.
Qed.

(** ** What each step computes

    One equation per step: the result, the state and the operations
    appended to the trace, for any state and any trace so far. *)

(** Reduction of the monad operations, and only of them. *)
Ltac mred :=
  cbv beta iota zeta delta [bind emit ret respond raise get put negb];
  rewrite <- ?app_assoc; cbn [app].

Section StepEquations.
Context `{Platform}.
Variable config : Config.

Lemma bind_eq {A B} (m : M A) (k : A -> M B) (s : State * list Event) :
  bind m k s =
  match m s with
  | (Next a, s') => k a s'
  | (Return r, s') => (Return r, s')
  | (Raise e, s') => (Raise e, s')
  end.
Proof. reflexivity. Qed.

Lemma stage_parse_eq (req : Request) (st : State) (tr : list Event) :
  stage_parse req (st, tr) =
  let tr' := tr ++ [EvReadBody; EvJsonParse (rawBody req)] in
  match JSON_parse (rawBody req) with
  | Some body => (Next (rawBody req, body), (st, tr'))
  | None => (Return (error_response 400 "Invalid JSON payload"), (st, tr'))
  end.
Proof.
  unfold stage_parse, request_text, bind, emit, ret, respond. simpl.
  rewrite <- app_assoc. simpl. now destruct (JSON_parse (rawBody req)).
Qed.

Lemma stage_probe_eq (body : value) (st : State) (tr : list Event) :
  stage_probe body (st, tr) =
  match isPing body with
  | None => (Raise "TypeError", (st, tr ++ [EvIsPing]))
  | Some true => (Return success, (st, tr ++ [EvIsPing]))
  | Some false => (Next tt, (st, tr ++ [EvIsPing]))
  end.
Proof.
  unfold stage_probe, bind, emit, ret, respond, raise. simpl.
  now destruct (isPing body) as [[]|].
Qed.

Lemma stage_signature_eq (req : Request) (raw : string) (st : State) (tr : list Event) :
  stage_signature req raw (st, tr) =
  match content_mac req with
  | None | Some EmptyString =>
      (Return (error_response 401 "Missing signature header"), (st, tr ++ [EvGetHeader]))
  | Some signatureHeader =>
      match webhookConfig st with
      | None =>
          (Return (error_response 500 "Webhook not configured"),
           (st, tr ++ [EvGetHeader; EvGetWebhookConfig]))
      | Some c =>
          let secret := macSecretBase64 c in
          let expected := expectedSignature secret raw in
          if negb (Nat.eqb (List.length (Buffer_from expected))
                           (List.length (Buffer_from signatureHeader)))
          then (Return (error_response 401 "Invalid signature"),
                (st, tr ++ trace_compare secret raw signatureHeader))
          else if String.eqb expected signatureHeader
          then (Next tt,
                (st, tr ++ trace_compare secret raw signatureHeader ++ [EvTimingSafeEqual]))
          else (Return (error_response 401 "Invalid signature"),
                (st, tr ++ trace_compare secret raw signatureHeader ++ [EvTimingSafeEqual]))
      end
  end.
Proof.
  unfold stage_signature, headers_get_content_mac, getWebhookConfig, hmac,
    compare_length, call_timingSafeEqual, trace_compare, expectedSignature.
  mred.
  destruct (content_mac req) as [[|c0 sig]|]; try reflexivity.
  destruct (webhookConfig st) as [c|].
  2: now mred.
  generalize (String c0 sig) as provided. intros provided.
  generalize ("hmac-sha256=" +:+ calculateWebhookHmac (macSecretBase64 c) raw).
  intros expected.
  destruct (Nat.eqb_spec (List.length (Buffer_from expected))
              (List.length (Buffer_from provided))) as [L|L]; mred; [|reflexivity].
  rewrite (timingSafeEqual_spec _ _ L).
  destruct (String.eqb_spec expected provided) as [E|E].
  - subst provided. rewrite bool_decide_eq_true_2 by reflexivity. now mred.
  - rewrite bool_decide_eq_false_2; [now mred|].
    intros E'. now apply Buffer_from_inj in E'.
Qed.

Lemma stage_freshness_eq (clk : Clock) (body : value) (st : State) (tr : list Event) :
  stage_freshness config clk body (st, tr) =
  if timestamp_throws body
  then (Raise "TypeError", (st, tr ++ [EvReadTimestamp]))
  else if stale config clk body
  then (Return (error_response 401 "Expired timestamp"), (st, tr ++ trace_timestamp clk body))
  else (Next (get_prop "timestamp" body), (st, tr ++ trace_timestamp clk body)).
Proof.
  unfold stage_freshness, Date_now, timestamp_throws, stale, expired, trace_timestamp. mred.
  destruct (get_prop "timestamp" body) as [ts|]; [|reflexivity].
  destruct (truthy (Some ts)); cbn [andb]; [|reflexivity].
  destruct (Date_getTime ts) as [[t|]|]; mred; [|reflexivity..].
  now destruct (_ <? _)%Z.
Qed.

Lemma stage_ratelimit_eq (clk : Clock) (st : State) (tr : list Event) :
  stage_ratelimit config clk (st, tr) =
  if rate_limited config clk st
  then (Return (rate_limit_response config clk st), (st, tr ++ trace_rate clk st))
  else (Next tt, (st, tr ++ trace_rate clk st)).
Proof.
  unfold stage_ratelimit, Date_now, read_lastProcessedTime, rate_limited, retry_after,
    rate_limit_response, trace_rate. mred.
  now destruct (_ && _).
Qed.

Lemma stage_idempotency_eq (body : value) (st : State) (tr : list Event) :
  stage_idempotency body (get_prop "timestamp" body) (st, tr) =
  if key_throws body
  then (Raise "TypeError", (st, tr ++ [EvReadWebhookId]))
  else if isWebhookProcessed (key_of body) (processed st)
  then (Return already_processed,
        (st, tr ++ [EvReadWebhookId; EvIsProcessed (key_of body)]))
  else (Next (webhookId_of body, key_of body),
        (st, tr ++ [EvReadWebhookId; EvIsProcessed (key_of body)])).
Proof.
  unfold stage_idempotency, call_isWebhookProcessed, key_throws, key_of. mred.
  destruct (idempotencyKey (webhookId_of body) (get_prop "timestamp" body)) as [key|];
    mred; [|reflexivity].
  now destruct (isWebhookProcessed _ _).
Qed.

Lemma stage_forward_eq (clk : Clock) (body : value) (st : State) (tr : list Event) :
  stage_forward clk body (get_prop "timestamp" body) (webhookId_of body) (key_of body)
    (st, tr) =
  match worker st with
  | None =>
      (Return (error_response 503 "Worker service unavailable"), (st, tr ++ [EvGetWorker]))
  | Some inbox =>
      (Return success,
       (accepted_state clk body st inbox, tr ++ EvGetWorker :: trace_accept clk body))
  end.
Proof.
  unfold stage_forward, store_worker, Date_now, write_lastProcessedTime,
    call_markWebhookProcessed, postMessage, accepted_state, trace_accept, marker_of. mred.
  destruct (worker st) as [inbox|] eqn:W; [|reflexivity].
  mred. cbn [lastProcessedTime webhookConfig processed worker]. now rewrite W.
Qed.

End StepEquations.

(** ** The handler follows one of the paths *)

(** Unfolds the conditions of the paths in the hypotheses. *)
Ltac open_paths :=
  unfold reaches_forward, reaches_lookup, reaches_idempotency, reaches_ratelimit,
    reaches_window, reaches_freshness, reaches_comparison, reaches_signature in *;
  repeat match goal with
         | H : _ /\ _ |- _ => destruct H
         | H : _ \/ _ |- _ => destruct H
         end.

Section HandlerPaths.
Context `{Platform}.
Variable config : Config.

Lemma triple_eq {A B C} (a a' : A) (b b' : B) (c c' : C) :
  (a, b, c) = (a', b', c') -> a = a' /\ b = b' /\ c = c'.
Proof. intros [= -> -> ->]. auto. Qed.

Lemma handler_Run (req : Request) (clk : Clock) (st : State) :
  forall out st' tr,
    handler config req clk st = (out, st', tr) -> Run config req clk st out st' tr.
Proof.
  intros out st' tr. unfold handler, pipeline.
  rewrite bind_eq, stage_parse_eq. cbv zeta. cbn [app].
  destruct (JSON_parse (rawBody req)) as [body|] eqn:Hparse.
  2: { intros [= <- <- <-]. now constructor. }
  rewrite bind_eq, stage_probe_eq.
  destruct (isPing body) as [[|]|] eqn:Hping.
  1: { intros [= <- <- <-]. now apply Run_ping with body. }
  2: { intros [= <- <- <-]. now apply Run_type_error with body. }
  assert (Hsig : reaches_signature req body) by now split.
  rewrite bind_eq, stage_signature_eq. cbn [app].
  destruct (content_mac req) as [sig|] eqn:Hhdr.
  2: { intros [= <- <- <-]. apply Run_missing_header with body; auto. }
  destruct sig as [|c0 sig].
  1: { intros [= <- <- <-]. apply Run_missing_header with body; auto. }
  assert (Hne : String c0 sig <> EmptyString) by discriminate.
  revert Hhdr Hne. generalize (String c0 sig). clear c0 sig. intros sig Hhdr Hne.
  destruct (webhookConfig st) as [c|] eqn:Hcfg.
  2: { intros [= <- <- <-]. now apply Run_not_configured with body sig. }
  assert (Hcmp : reaches_comparison req st body c sig) by now repeat split.
  cbv zeta.
  destruct (Nat.eqb_spec
              (List.length (Buffer_from (expectedSignature (macSecretBase64 c) (rawBody req))))
              (List.length (Buffer_from sig))) as [L|L]; cbn [negb].
  2: { intros [= <- <- <-]. now apply Run_wrong_length with body. }
  destruct (String.eqb_spec (expectedSignature (macSecretBase64 c) (rawBody req)) sig)
    as [E|E].
  2: { intros [= <- <- <-]. apply Run_wrong_signature with body; auto. }
  subst sig. clear L Hne Hhdr Hcfg.
  change (EvReadBody :: EvJsonParse (rawBody req) :: EvIsPing :: ?t)
    with (trace_probe req ++ t).
  fold (trace_signature req c (expectedSignature (macSecretBase64 c) (rawBody req))).
  rewrite bind_eq, stage_freshness_eq.
  destruct (timestamp_throws body) eqn:Hthrows.
  1: { intros E0. apply triple_eq in E0 as (<- & <- & <-).
       apply Run_timestamp_throws with body; assumption. }
  assert (Hwin : reaches_window req st body c) by (split; assumption).
  fold (trace_freshness req clk c body).
  destruct (stale config clk body) eqn:Hstale.
  1: { intros E0. apply triple_eq in E0 as (<- & <- & <-).
       apply Run_expired; assumption. }
  assert (Hrate : reaches_ratelimit config req clk st body c) by (split; assumption).
  rewrite bind_eq, stage_ratelimit_eq.
  fold (trace_ratelimit req clk st c body).
  destruct (rate_limited config clk st) eqn:Hlim.
  1: { intros E0. apply triple_eq in E0 as (<- & <- & <-).
       apply Run_rate_limited; assumption. }
  assert (Hidem : reaches_idempotency config req clk st body c) by (split; assumption).
  rewrite bind_eq, stage_idempotency_eq.
  destruct (key_throws body) eqn:Hkey.
  1: { intros E0. apply triple_eq in E0 as (<- & <- & <-).
       apply Run_key_throws; assumption. }
  assert (Hlook : reaches_lookup config req clk st body c) by (split; assumption).
  fold (trace_idempotency req clk st c body).
  destruct (isWebhookProcessed (key_of body) (processed st)) eqn:Hproc.
  1: { intros E0. apply triple_eq in E0 as (<- & <- & <-).
       apply Run_skipped; assumption. }
  assert (Hfwd : reaches_forward config req clk st body c) by (split; assumption).
  rewrite stage_forward_eq.
  destruct (worker st) as [inbox|] eqn:Hw.
  - replace (trace_idempotency req clk st c body ++ EvGetWorker :: trace_accept clk body)
      with (trace_forward req clk st c body ++ trace_accept clk body)
      by (unfold trace_forward; rewrite <- app_assoc; reflexivity).
    intros E. apply triple_eq in E as (<- & <- & <-).
    apply Run_accepted; assumption.
  - intros E0. apply triple_eq in E0 as (<- & <- & <-).
    apply Run_unavailable; assumption.
Qed.

Lemma Run_deterministic (req : Request) (clk : Clock) (st : State) :
  forall out1 st1 tr1 out2 st2 tr2,
    Run config req clk st out1 st1 tr1 -> Run config req clk st out2 st2 tr2 ->
    out1 = out2 /\ st1 = st2 /\ tr1 = tr2.
Proof.
  intros out1 st1 tr1 out2 st2 tr2 R1 R2.
  destruct R1; destruct R2; open_paths;
    try congruence;
    repeat match goal with
           | H1 : ?x = Some ?a, H2 : ?x = Some ?b |- _ =>
               assert (a = b) by congruence; subst b; clear H2
           end;
    try congruence; auto.
Qed.

Lemma Run_handler (req : Request) (clk : Clock) (st : State) :
  forall out st' tr,
    Run config req clk st out st' tr -> handler config req clk st = (out, st', tr).
Proof.
  intros out st' tr R.
  destruct (handler config req clk st) as [[out2 st2] tr2] eqn:E.
  apply handler_Run in E.
  destruct (Run_deterministic _ _ _ _ _ _ _ _ _ R E) as (-> & -> & ->). reflexivity.
Qed.

End HandlerPaths.

(** ** Traces of the paths *)

(** Unfolds the traces of the paths. *)
Ltac open_traces :=
  unfold trace_accept, trace_forward, trace_idempotency, trace_ratelimit, trace_freshness,
    trace_signature, trace_probe, trace_compare, trace_timestamp, trace_rate in *.

Section PathTraces.
Context `{Platform}.
Variables (req : Request) (clk : Clock) (st : State) (c : WebhookConfig) (body : value).

(** Up to the moment it accepts, the handler changes nothing. *)
Lemma trace_forward_pure : existsb mutates (trace_forward req clk st c body) = false.
Proof.
  open_traces. rewrite !existsb_app. cbn [existsb mutates orb app].
  now destruct (truthy (get_prop "timestamp" body)).
Qed.

Lemma existsb_app_false {A} (p : A -> bool) (l1 l2 : list A) :
  existsb p (l1 ++ l2) = false -> existsb p l1 = false.
Proof. rewrite existsb_app. now intros [? _]%orb_false_iff. Qed.

Lemma trace_idempotency_pure : existsb mutates (trace_idempotency req clk st c body) = false.
Proof. exact (existsb_app_false _ _ _ trace_forward_pure). Qed.

Lemma trace_ratelimit_pure : existsb mutates (trace_ratelimit req clk st c body) = false.
Proof. exact (existsb_app_false _ _ _ trace_idempotency_pure). Qed.

Lemma trace_freshness_pure : existsb mutates (trace_freshness req clk c body) = false.
Proof.
  open_traces. rewrite !existsb_app. cbn [existsb mutates orb app].
  now destruct (truthy (get_prop "timestamp" body)).
Qed.

Lemma trace_signature_pure (sig : string) :
  existsb mutates (trace_signature req c sig) = false.
Proof. reflexivity. Qed.

End PathTraces.

(** A run that is not accepted leaves the state as it was and performs no
    operation that changes it; an accepted run is the last path. *)
Lemma Run_unchanged_or_accepted `{Platform} (config : Config) (req : Request) (clk : Clock)
    (st : State) (out : Outcome) (st' : State) (tr : list Event) :
  Run config req clk st out st' tr ->
  (st' = st /\ existsb mutates tr = false)
  \/ (exists body c inbox,
        reaches_forward config req clk st body c /\ worker st = Some inbox
        /\ out = Responded success /\ st' = accepted_state clk body st inbox
        /\ tr = trace_forward req clk st c body ++ trace_accept clk body).
Proof.
  intros R. destruct R; [left; split; [reflexivity|] .. | right].
  1-8: reflexivity.
  - apply trace_freshness_pure.
  - apply trace_ratelimit_pure.
  - rewrite existsb_app, trace_ratelimit_pure. reflexivity.
  - apply trace_idempotency_pure.
  - apply trace_forward_pure.
  - exists body, c, inbox. auto.
Qed.

Lemma mutates_is_post `{Platform} (tr : list Event) :
  existsb mutates tr = false -> forwards tr = false.
Proof.
  unfold forwards. induction tr as [|e tr IH]; [reflexivity|]. cbn [existsb].
  intros [He Htr]%orb_false_iff. rewrite (IH Htr). now destruct e.
Qed.

(** ** The handler after the signature step

    For a request that passes the signature step, the outcome is decided by
    the timestamp validation, the rate limiter, the ledger and the worker,
    in this order. *)

Lemma handler_after_signature `{Platform} (config : Config) (req : Request) (clk : Clock)
    (st : State) (body : value) (c : WebhookConfig) :
  reaches_freshness req st body c ->
  handler config req clk st =
  if timestamp_throws body
  then (Threw "TypeError", st,
        trace_signature req c (expectedSignature (macSecretBase64 c) (rawBody req))
        ++ [EvReadTimestamp])
  else if stale config clk body
  then (Responded (error_response 401 "Expired timestamp"), st,
        trace_freshness req clk c body)
  else if rate_limited config clk st
  then (Responded (rate_limit_response config clk st), st,
        trace_ratelimit req clk st c body)
  else if key_throws body
  then (Threw "TypeError", st, trace_ratelimit req clk st c body ++ [EvReadWebhookId])
  else if isWebhookProcessed (key_of body) (processed st)
  then (Responded already_processed, st, trace_idempotency req clk st c body)
  else
    match worker st with
    | None =>
        (Responded (error_response 503 "Worker service unavailable"), st,
         trace_forward req clk st c body)
    | Some inbox =>
        (Responded success, accepted_state clk body st inbox,
         trace_forward req clk st c body ++ trace_accept clk body)
    end.
Proof.
  intros Hreach.
  destruct (timestamp_throws body) eqn:Hthrows.
  { apply Run_handler, Run_timestamp_throws with body; assumption. }
  assert (reaches_window req st body c) by (split; assumption).
  destruct (stale config clk body) eqn:Hstale.
  { apply Run_handler, Run_expired; assumption. }
  assert (reaches_ratelimit config req clk st body c) by (split; assumption).
  destruct (rate_limited config clk st) eqn:Hlim.
  { apply Run_handler, Run_rate_limited; assumption. }
  assert (reaches_idempotency config req clk st body c) by (split; assumption).
  destruct (key_throws body) eqn:Hkey.
  { apply Run_handler, Run_key_throws; assumption. }
  assert (reaches_lookup config req clk st body c) by (split; assumption).
  destruct (isWebhookProcessed (key_of body) (processed st)) eqn:Hproc.
  { apply Run_handler, Run_skipped; assumption. }
  assert (reaches_forward config req clk st body c) by (split; assumption).
  destruct (worker st) as [inbox|] eqn:Hw.
  - apply Run_handler, Run_accepted; assumption.
  - apply Run_handler, Run_unavailable; assumption.
Qed.

(** A request whose body parses, is not a ping, and whose header is the
    expected signature under the configured secret passes the signature
    step. *)
Lemma signed_reaches_freshness `{Platform} (req : Request) (st : State) (body : value)
    (c : WebhookConfig) :
  JSON_parse (rawBody req) = Some body ->
  isPing body = Some false ->
  webhookConfig st = Some c ->
  content_mac req = Some (expectedSignature (macSecretBase64 c) (rawBody req)) ->
  reaches_freshness req st body c.
Proof.
  intros Hparse Hping Hcfg Hmac. unfold reaches_freshness, reaches_comparison,
    reaches_signature. repeat split; try assumption. discriminate.
Qed.

(** The steps of the runs that pass the timestamp validation include the
    rate limiter. *)
Lemma ratelimit_in_stages `{Platform} (req : Request) (clk : Clock) (st : State)
    (c : WebhookConfig) (body : value) (rest : list Event) :
  In SRateLimit (stages_run (trace_ratelimit req clk st c body ++ rest)).
Proof.
  assert (Hsq : forall l s, In s l -> In s (squeeze l)).
  { induction l as [|a [|b l] IH]; intros s Hin; [assumption..|].
    change (squeeze (a :: b :: l))
      with (if Stage_eqb a b then squeeze (b :: l) else a :: squeeze (b :: l)).
    destruct (Stage_eqb a b) eqn:E.
    - apply IH. destruct Hin as [<-|Hin]; [|assumption]. left.
      apply Nat.eqb_eq in E. destruct a, b; simpl in E; congruence.
    - destruct Hin as [<-|Hin]; [now left | right; now apply IH]. }
  apply Hsq. unfold stages_run. apply in_map_iff.
  exists (EvNow SRateLimit (now_ratelimit clk)). split; [reflexivity|].
  unfold trace_ratelimit, trace_rate. rewrite !in_app_iff. left. right. now left.
Qed.

(** ** The rate limiter and the ledger along a run *)

Lemma ceil_seconds_bounds (ms : Z) :
  (ms <= 1000 * ceil_seconds ms < ms + 1000)%Z.
Proof.
  unfold ceil_seconds.
  pose proof (Z.div_mod (- ms) 1000 ltac:(lia)).
  pose proof (Z.mod_pos_bound (- ms) 1000 ltac:(lia)). lia.
Qed.

(** A 429 is only answered when [lastProcessedTime] is positive. *)
Lemma rate_limited_positive `{Platform} (config : Config) (req : Request) (clk : Clock)
    (st st' : State) (r : Response) (tr : list Event) :
  handler config req clk st = (Responded r, st', tr) ->
  http_status r = 429%Z ->
  (0 < lastProcessedTime st)%Z.
Proof.
  intros Hrun Hstatus. apply handler_Run in Hrun.
  inversion Hrun; subst; try discriminate Hstatus.
  match goal with
  | Hlim : rate_limited _ _ _ = true |- _ =>
      unfold rate_limited in Hlim; apply andb_true_iff in Hlim as [Hpos _]
  end.
  now apply Z.ltb_lt in Hpos.
Qed.

(** A run keeps the markers of the ledger. *)
Lemma handler_keeps_markers `{Platform} (config : Config) (req : Request) (clk : Clock)
    (st st' : State) (out : Outcome) (tr : list Event) (key : string) :
  handler config req clk st = (out, st', tr) ->
  isWebhookProcessed key (processed st) = true ->
  isWebhookProcessed key (processed st') = true.
Proof.
  intros Hrun Hkey. apply handler_Run in Hrun.
  destruct (Run_unchanged_or_accepted _ _ _ _ _ _ _ Hrun)
    as [[-> _] | (body & c & inbox & _ & _ & _ & -> & _)]; [assumption|].
  unfold accepted_state, isWebhookProcessed, markWebhookProcessed in *. cbn [processed].
  destruct (decide (key_of body = key)) as [->|Hne].
  - now rewrite lookup_insert_eq.
  - now rewrite lookup_insert_ne.
Qed.

Lemma run_keeps_markers `{Platform} (config : Config) (reqs : list (Request * Clock))
    (key : string) :
  forall st outs final,
    run config reqs st = (outs, final) ->
    isWebhookProcessed key (processed st) = true ->
    isWebhookProcessed key (processed final) = true.
Proof.
  induction reqs as [|[req clk] rest IH]; intros st outs final Hrun Hkey.
  - injection Hrun as _ <-. assumption.
  - cbn [run] in Hrun.
    destruct (handler config req clk st) as [[out st1] tr] eqn:Hstep.
    destruct (run config rest st1) as [outs' final'] eqn:Hrest.
    injection Hrun as _ <-.
    eapply IH; [eassumption|]. eapply handler_keeps_markers; eassumption.
Qed.

(** Before the idempotency step, no key is looked up. *)
Lemma trace_ratelimit_no_lookup `{Platform} (req : Request) (clk : Clock) (st : State)
    (c : WebhookConfig) (body : value) :
  looks_up (trace_ratelimit req clk st c body) = false.
Proof.
  unfold looks_up. open_traces. rewrite !existsb_app. cbn [existsb is_lookup orb app].
  now destruct (truthy (get_prop "timestamp" body)).
Qed.

Lemma trace_freshness_no_lookup `{Platform} (req : Request) (clk : Clock)
    (c : WebhookConfig) (body : value) :
  looks_up (trace_freshness req clk c body) = false.
Proof.
  unfold looks_up. open_traces. rewrite !existsb_app. cbn [existsb is_lookup orb app].
  now destruct (truthy (get_prop "timestamp" body)).
Qed.

(** Reading the identifier looks no key up. *)
Lemma trace_webhookId_no_lookup `{Platform} (req : Request) (clk : Clock) (st : State)
    (c : WebhookConfig) (body : value) :
  looks_up (trace_ratelimit req clk st c body ++ [EvReadWebhookId]) = false.
Proof.
  unfold looks_up. rewrite existsb_app.
  fold (looks_up (trace_ratelimit req clk st c body)).
  now rewrite trace_ratelimit_no_lookup.
Qed.

(** A run that forwards a body leaves its key in the ledger. *)
Lemma forwarded_is_marked `{Platform} (config : Config) (req : Request) (clk : Clock)
    (st st' : State) (out : Outcome) (tr : list Event) :
  handler config req clk st = (out, st', tr) ->
  forwards tr = true ->
  exists body,
    JSON_parse (rawBody req) = Some body
    /\ isWebhookProcessed (key_of body) (processed st') = true.
Proof.
  intros Hrun Hfwd. apply handler_Run in Hrun.
  destruct (Run_unchanged_or_accepted _ _ _ _ _ _ _ Hrun)
    as [[-> Hpure] | (body & c & inbox & Hreach & Hw & -> & -> & ->)].
  - apply mutates_is_post in Hpure. congruence.
  - exists body. open_paths. split; [assumption|].
    unfold accepted_state, isWebhookProcessed, markWebhookProcessed. cbn [processed].
    now rewrite lookup_insert_eq.
Qed.

(** The timestamp is read by every run that passes the signature step. *)
Lemma timestamp_read_after_signature `{Platform} (req : Request) (clk : Clock)
    (c : WebhookConfig) (body : value) (rest : list Event) :
  In EvReadTimestamp (trace_freshness req clk c body ++ rest).
Proof.
  unfold trace_freshness, trace_timestamp. rewrite !in_app_iff. left. right. now left.
Qed.

Lemma expectedSignature_inj `{Platform} (secret raw other : string) :
  expectedSignature secret other = expectedSignature secret raw ->
  calculateWebhookHmac secret other = calculateWebhookHmac secret raw.
Proof. unfold expectedSignature. cbn. now intros [= ?]. Qed.

(** ** The checks along the paths *)

Lemma check_signature_pass `{Platform} (req : Request) (st : State) (body : value)
    (c : WebhookConfig) :
  reaches_freshness req st body c -> check_signature req st = Pass.
Proof.
  intros (_ & Hmac & _ & Hcfg). unfold check_signature. rewrite Hmac, Hcfg.
  rewrite String.eqb_refl. reflexivity.
Qed.

Lemma check_signature_mismatch `{Platform} (req : Request) (st : State) (body : value)
    (c : WebhookConfig) (signatureHeader : string) :
  reaches_comparison req st body c signatureHeader ->
  signatureHeader <> expectedSignature (macSecretBase64 c) (rawBody req) ->
  check_signature req st = Stop (Responded (error_response 401 "Invalid signature")).
Proof.
  intros (_ & Hmac & Hne & Hcfg) Hdiff. unfold check_signature. rewrite Hmac, Hcfg.
  destruct signatureHeader as [|c0 sig]; [contradiction|].
  now apply String.eqb_neq in Hdiff as ->.
Qed.

Lemma check_chain_mismatch `{Platform} (config : Config) (req : Request) (clk : Clock)
    (st : State) (body : value) (c : WebhookConfig) (signatureHeader : string) :
  reaches_comparison req st body c signatureHeader ->
  signatureHeader <> expectedSignature (macSecretBase64 c) (rawBody req) ->
  first_stop (checks config req clk st)
  = Some (SSignature, Responded (error_response 401 "Invalid signature")).
Proof.
  intros Hcmp Hdiff. pose proof Hcmp as ((Hparse & Hping) & _).
  unfold checks. rewrite Hparse. cbn [first_stop]. unfold check_probe. rewrite Hping.
  cbn [first_stop]. now rewrite (check_signature_mismatch _ _ _ _ _ Hcmp Hdiff).
Qed.

(** Computes the first check that stops from the conditions of a path. *)
Ltac check_chain :=
  open_paths; unfold checks;
  repeat match goal with
         | Hp : JSON_parse _ = _ |- _ => rewrite Hp
         end;
  cbn [first_stop]; unfold check_probe;
  repeat match goal with
         | Hp : isPing _ = _ |- _ => rewrite Hp
         end;
  cbn [first_stop]; try reflexivity;
  first
    [ (* the signature step stops *)
      unfold check_signature;
      repeat match goal with
             | Hm : content_mac _ = _ |- _ => rewrite Hm
             | Hc : webhookConfig _ = _ |- _ => rewrite Hc
             end;
      match goal with
      | |- context [match ?sig with EmptyString => _ | String _ _ => _ end] =>
          destruct sig; [contradiction|]
      | |- _ => idtac
      end;
      reflexivity
    | (* the signature step passes *)
      erewrite check_signature_pass
        by (unfold reaches_freshness, reaches_comparison, reaches_signature;
            repeat split; eassumption);
      cbn [first_stop]; unfold check_freshness, check_ratelimit, check_idempotency,
        check_forward;
      repeat match goal with
             | Hb : ?x = true |- context [?x] => rewrite Hb
             | Hb : ?x = false |- context [?x] => rewrite Hb
             | Hw : worker _ = _ |- _ => rewrite Hw
             end;
      cbn [first_stop]; reflexivity ].

(** * The claims *)

Section Claims.
Context `{Platform}.
Variable config : Config.

(** C8. Every rejection of the pipeline (malformed input, unauthorized,
    rate limited, already processed, missing configuration, worker
    unavailable) is a response to the sender, and the run that produces it
    leaves the pipeline state unchanged: the ledger of markers and the
    last-accepted time are the same, and the run performs no operation that
    writes either of them. *)
Theorem rejection_leaves_state_unchanged (req : Request) (clk : Clock) (st st' : State)
    (out : Outcome) (tr : list Event) (r : Response) (k : Rejection) :
  handler config req clk st = (out, st', tr) ->
  out = Responded r ->
  rejection_of r = Some k ->
  st' = st
  /\ processed st' = processed st
  /\ lastProcessedTime st' = lastProcessedTime st
  /\ existsb mutates tr = false.
Proof.
  intros Hrun -> Hrej. apply handler_Run in Hrun.
  destruct (Run_unchanged_or_accepted _ _ _ _ _ _ _ Hrun)
    as [[-> Hpure] | (body & c & inbox & _ & _ & [= ->] & _)].
  - auto.
  - discriminate Hrej.
Qed.

(** C6, as the code has it. A parsed body that is an object or an array
    (so that [in] applies to it) and has none of the fields [base],
    [webhook] and [timestamp] is acknowledged with success at once: whatever the
    signature header and the state are, the handler only reads the body,
    parses it and detects the ping; it reads no header, fetches no secret,
    computes no HMAC, and changes nothing. *)
Theorem ping_acknowledged_without_checks (req : Request) (clk : Clock) (st : State)
    (body : value) :
  JSON_parse (rawBody req) = Some body ->
  js_in "base" body = Some false ->
  js_in "webhook" body = Some false ->
  js_in "timestamp" body = Some false ->
  handler config req clk st
  = (Responded success, st, [EvReadBody; EvJsonParse (rawBody req); EvIsPing]).
Proof.
  intros Hparse Hbase Hwebhook Htimestamp.
  apply Run_handler, Run_ping with body; [assumption|].
  unfold isPing. now rewrite Hbase, Hwebhook, Htimestamp.
Qed.

(** C5. In every run that hands a notification to the worker, the marker
    of its idempotency key is written just before the message is posted:
    the trace ends with the mark and then the post, there is no other post,
    and the ledger that the run leaves holds the key. *)
Theorem mark_precedes_forward (req : Request) (clk : Clock) (st st' : State)
    (out : Outcome) (tr : list Event) :
  handler config req clk st = (out, st', tr) ->
  forwards tr = true ->
  exists pre body,
    JSON_parse (rawBody req) = Some body
    /\ tr = pre ++ [EvMark (key_of body); EvPostMessage (WEBHOOK_RECEIVED body)]
    /\ forwards pre = false
    /\ isWebhookProcessed (key_of body) (processed st') = true
    /\ out = Responded success.
Proof.
  intros Hrun Hfwd. apply handler_Run in Hrun.
  destruct (Run_unchanged_or_accepted _ _ _ _ _ _ _ Hrun)
    as [[-> Hpure] | (body & c & inbox & Hreach & Hw & -> & -> & ->)].
  - apply mutates_is_post in Hpure. congruence.
  - exists (trace_forward req clk st c body
            ++ [EvNow SForward (now_accept clk); EvSetLastProcessed (now_accept clk)]), body.
    open_paths. repeat split; try assumption.
    + unfold trace_accept. now rewrite <- app_assoc.
    + pose proof (mutates_is_post _ (trace_forward_pure req clk st c body)) as Hpre.
      unfold forwards in *. rewrite existsb_app, Hpre. reflexivity.
    + unfold accepted_state, isWebhookProcessed, markWebhookProcessed. cbn [processed].
      now rewrite lookup_insert_eq.
Qed.

(** C4. The handler is the chain of the checks in the fixed order parse,
    probe detection, signature verification, freshness window, rate
    limiting, idempotency, forward: a run ends at the first step whose
    check does not pass, with the outcome of that check; the steps it went
    through are exactly the steps of the fixed order up to that one, so
    every step before it ran and passed and no later step ran; and unless
    the run ends by forwarding, the state is unchanged and nothing is
    written. In particular an unparseable payload is answered with status
    400 by the parse step, no later step runs, and no marker is written. *)
Theorem stages_run_in_order (req : Request) (clk : Clock) (st st' : State)
    (out : Outcome) (tr : list Event) :
  handler config req clk st = (out, st', tr) ->
  (exists s,
     first_stop (checks config req clk st) = Some (s, out)
     /\ stages_run tr = stages_through s
     /\ ((st' = st /\ existsb mutates tr = false)
         \/ (s = SForward /\ out = Responded success /\ forwards tr = true)))
  /\ (JSON_parse (rawBody req) = None ->
      out = Responded (error_response 400 "Invalid JSON payload")
      /\ stages_run tr = [SParse]
      /\ st' = st
      /\ existsb mutates tr = false).
Proof.
  intros Hrun. apply handler_Run in Hrun. split.
  - destruct (Run_unchanged_or_accepted _ _ _ _ _ _ _ Hrun)
      as [Hkept | (body & c & inbox & Hreach & Hw & -> & -> & ->)].
    + revert Hkept.
      destruct Hrun; intros Hkept;
        [ exists SParse | exists SProbe | exists SProbe | exists SSignature
        | exists SSignature | exists SSignature | exists SSignature | exists SFreshness
        | exists SFreshness | exists SRateLimit | exists SIdempotency | exists SIdempotency
        | exists SForward | exists SForward ].
      all: split; [|split; [|left; exact Hkept]].
      all: try (open_traces; unfold stages_run; rewrite ?map_app; cbn [map stage_of app];
                first [reflexivity
                      | destruct (truthy (get_prop "timestamp" body)); reflexivity]).
      all: clear Hkept.
      * check_chain.
      * check_chain.
      * check_chain.
      * check_chain.
      * check_chain.
      * match goal with
        | Hc : reaches_comparison _ _ _ _ _ |- _ =>
            rewrite (check_chain_mismatch _ _ _ _ _ _ _ Hc); [reflexivity|]
        end.
        intros ->. congruence.
      * match goal with
        | Hc : reaches_comparison _ _ _ _ _ |- _ =>
            rewrite (check_chain_mismatch _ _ _ _ _ _ _ Hc); [reflexivity | assumption]
        end.
      * check_chain.
      * check_chain.
      * check_chain.
      * check_chain.
      * check_chain.
      * check_chain.
      * check_chain.
    + exists SForward. split; [check_chain|]. split.
      * open_traces; unfold stages_run; rewrite ?map_app; cbn [map stage_of app].
        destruct (truthy (get_prop "timestamp" body)); reflexivity.
      * right. split; [reflexivity|]. split; [reflexivity|].
        unfold forwards. rewrite existsb_app. apply orb_true_iff. now right.
  - intros Hnone. destruct Hrun; open_paths; try congruence.
    repeat split; reflexivity.
Qed.

(** C7, as the code has it. For a notification that passes the signature
    step: when its [timestamp] passes the test [if (timestamp)] (a
    non-empty string, or another truthy value that [new Date] converts),
    the pipeline answers 401 (unauthorized) if the timestamp does not parse
    or if its distance from the current time exceeds the window, and the
    freshness step lets it through otherwise; when the [timestamp] is
    missing or fails the test (the empty string, [null], [false], zero),
    the freshness step does not reject it and the rate limiter runs. *)
Theorem freshness_window (req : Request) (clk : Clock) (st st' : State)
    (out : Outcome) (tr : list Event) (body : value) (c : WebhookConfig) :
  handler config req clk st = (out, st', tr) ->
  JSON_parse (rawBody req) = Some body ->
  isPing body = Some false ->
  webhookConfig st = Some c ->
  content_mac req = Some (expectedSignature (macSecretBase64 c) (rawBody req)) ->
  let timestamp := get_prop "timestamp" body in
  let windowMs := (webhookTimestampWindow config * 1000)%Z in
  let rejected := out = Responded (error_response 401 "Expired timestamp") in
  (forall ts, timestamp = Some ts -> truthy timestamp = true ->
     Date_getTime ts = Some None -> rejected /\ st' = st)
  /\ (forall ts t, timestamp = Some ts -> truthy timestamp = true ->
        Date_getTime ts = Some (Some t) ->
        (windowMs < Z.abs (now_freshness clk - t))%Z ->
        rejected /\ st' = st)
  /\ (forall ts t, timestamp = Some ts -> truthy timestamp = true ->
        Date_getTime ts = Some (Some t) ->
        (Z.abs (now_freshness clk - t) <= windowMs)%Z ->
        ~ rejected /\ In SRateLimit (stages_run tr))
  /\ (truthy timestamp = false -> ~ rejected /\ In SRateLimit (stages_run tr)).
Proof.
  intros Hrun Hparse Hping Hcfg Hmac timestamp windowMs rejected.
  pose proof (signed_reaches_freshness _ _ _ _ Hparse Hping Hcfg Hmac) as Hreach.
  rewrite (handler_after_signature config _ clk _ _ _ Hreach) in Hrun.
  assert (Hfresh : timestamp_throws body = false -> stale config clk body = false ->
                   ~ rejected /\ In SRateLimit (stages_run tr)).
  { intros Hthrows Hstale. rewrite Hthrows, Hstale in Hrun. subst rejected.
    destruct (rate_limited config clk st);
      [|destruct (key_throws body);
        [|destruct (isWebhookProcessed (key_of body) (processed st));
          [|destruct (worker st)]]];
      apply triple_eq in Hrun as (<- & <- & <-); (split; [discriminate|]).
    - rewrite <- (app_nil_r (trace_ratelimit _ _ _ _ _)). apply ratelimit_in_stages.
    - apply ratelimit_in_stages.
    - apply ratelimit_in_stages.
    - unfold trace_forward, trace_idempotency. rewrite <- !app_assoc.
      apply ratelimit_in_stages.
    - unfold trace_forward, trace_idempotency. rewrite <- !app_assoc.
      apply ratelimit_in_stages. }
  assert (Hstale : timestamp_throws body = false -> stale config clk body = true ->
                   rejected /\ st' = st).
  { intros Hthrows Hstale. rewrite Hthrows, Hstale in Hrun.
    apply triple_eq in Hrun as (<- & <- & <-). now split. }
  subst timestamp windowMs. unfold timestamp_throws, stale, expired in *.
  split; [|split; [|split]].
  - intros ts Hts Htruthy Hnan. rewrite Hts in *.
    apply Hstale; now rewrite Htruthy, Hnan.
  - intros ts t Hts Htruthy Ht Hfar. rewrite Hts in *.
    apply Hstale; rewrite Htruthy, Ht; [reflexivity|]. now apply Z.ltb_lt in Hfar as ->.
  - intros ts t Hts Htruthy Ht Hnear. rewrite Hts in *.
    apply Hfresh; rewrite Htruthy, Ht; [reflexivity|].
    apply Z.ltb_ge in Hnear as ->. reflexivity.
  - intros Hfalsy.
    destruct (get_prop "timestamp" body) as [ts|]; [|now apply Hfresh].
    apply Hfresh; now rewrite Hfalsy.
Qed.

(** C9, as the code has it. A notification that reaches the rate limiter
    when a notification has been accepted before ([lastProcessedTime] is
    positive) and before [lastProcessedTime] plus the interval is rejected
    with status 429 and a retry-after hint in whole seconds: the remaining
    milliseconds divided by 1000 and rounded up, so the hint covers the
    remaining time and exceeds it by less than a second. *)
Theorem rate_limit_retry_after (req : Request) (clk : Clock) (st st' : State)
    (out : Outcome) (tr : list Event) (body : value) (c : WebhookConfig) :
  handler config req clk st = (out, st', tr) ->
  reaches_ratelimit config req clk st body c ->
  (0 < lastProcessedTime st)%Z ->
  (now_ratelimit clk < lastProcessedTime st + webhookRateLimit config * 1000)%Z ->
  let remaining :=
    (lastProcessedTime st + webhookRateLimit config * 1000 - now_ratelimit clk)%Z in
  out = Responded {| http_status := 429;
                     response_body :=
                       RateLimitBody "Rate limit exceeded" (ceil_seconds remaining) |}
  /\ st' = st
  /\ (remaining <= 1000 * ceil_seconds remaining < remaining + 1000)%Z.
Proof.
  intros Hrun [[Hreach Hthrows] Hstale] Hpos Hsoon remaining.
  rewrite (handler_after_signature config _ clk _ _ _ Hreach), Hthrows, Hstale in Hrun.
  assert (Hlim : rate_limited config clk st = true).
  { unfold rate_limited. apply andb_true_iff. split; apply Z.ltb_lt; lia. }
  rewrite Hlim in Hrun. apply triple_eq in Hrun as (<- & <- & <-).
  split; [|split; [reflexivity | apply ceil_seconds_bounds]].
  unfold rate_limit_response, retry_after.
  replace (webhookRateLimit config * 1000 - (now_ratelimit clk - lastProcessedTime st))%Z
    with remaining by (subst remaining; lia).
  reflexivity.
Qed.

(** C10. From process start, where [lastProcessedTime] is 0, the rate
    limiter rejects nothing until a notification has been accepted: the
    guard is false in the initial state whatever the time is, and in every
    run of requests from the initial state each 429 comes after a request
    that was accepted and forwarded to the worker. *)
Theorem first_notification_not_rate_limited (db : option WebhookConfig)
    (ledger : gmap string Marker) (w : option (list WorkerMessage))
    (reqs : list (Request * Clock)) (outs : list (Outcome * list Event)) (final : State) :
  run config reqs (initial_state db ledger w) = (outs, final) ->
  (forall clk, rate_limited config clk (initial_state db ledger w) = false)
  /\ (forall (i : nat) (r : Response) (tr : list Event),
        outs !! i = Some (Responded r, tr) ->
        http_status r = 429%Z ->
        exists (j : nat) (tr' : list Event),
          j < i /\ outs !! j = Some (Responded success, tr') /\ forwards tr' = true).
Proof.
  intros Hrun. split; [reflexivity|].
  assert (Hgen : forall reqs st outs final,
             run config reqs st = (outs, final) ->
             (lastProcessedTime st <= 0)%Z ->
             forall (i : nat) (r : Response) (tr : list Event),
               outs !! i = Some (Responded r, tr) ->
               http_status r = 429%Z ->
               exists (j : nat) (tr' : list Event),
                 j < i /\ outs !! j = Some (Responded success, tr')
                 /\ forwards tr' = true).
  { clear. induction reqs as [|[req clk] rest IH]; intros st outs final Hrun Hzero i r tr Hi Hr.
    - injection Hrun as <- _. discriminate Hi.
    - cbn [run] in Hrun.
      destruct (handler config req clk st) as [[out st1] tr0] eqn:Hstep.
      destruct (run config rest st1) as [outs' final'] eqn:Hrest.
      injection Hrun as <- _.
      destruct i as [|i].
      + injection Hi as -> ->.
        pose proof (rate_limited_positive _ _ _ _ _ _ _ Hstep Hr). lia.
      + cbn in Hi. pose proof Hstep as Hpath. apply handler_Run in Hpath.
        destruct (Run_unchanged_or_accepted _ _ _ _ _ _ _ Hpath)
          as [[-> _] | (body & c & inbox & _ & _ & -> & _ & ->)].
        * destruct (IH _ _ _ Hrest Hzero _ _ _ Hi Hr) as (j & tr' & Hj & Hout & Hfwd).
          exists (S j), tr'. split; [lia | now split].
        * exists 0, (trace_forward req clk st c body ++ trace_accept clk body).
          split; [lia | split; [reflexivity|]].
          unfold forwards. rewrite existsb_app. apply orb_true_iff. now right. }
  apply (Hgen _ _ _ _ Hrun). cbn. lia.
Qed.


(** C1. For a notification that is not a probe: the run passes the
    signature step (it goes on to read the timestamp), and a fortiori is
    accepted, only if there is a webhook secret and the signature header is
    the string [hmac-sha256=] followed by the HMAC of the received bytes
    under that secret; with that header it does pass the signature step;
    and with the signature of another body, whose HMAC differs, it is
    rejected as unauthorized (401, invalid signature) and nothing changes. *)
Theorem signature_verification (req : Request) (clk : Clock) (st st' : State)
    (out : Outcome) (tr : list Event) (body : value) :
  handler config req clk st = (out, st', tr) ->
  JSON_parse (rawBody req) = Some body ->
  isPing body = Some false ->
  let signature_of (c : WebhookConfig) (bytes : string) : string :=
    "hmac-sha256=" +:+ calculateWebhookHmac (macSecretBase64 c) bytes in
  (In EvReadTimestamp tr \/ forwards tr = true ->
   exists c, webhookConfig st = Some c
             /\ content_mac req = Some (signature_of c (rawBody req)))
  /\ (forall c, webhookConfig st = Some c ->
        content_mac req = Some (signature_of c (rawBody req)) ->
        In EvReadTimestamp tr)
  /\ (forall c other, webhookConfig st = Some c ->
        content_mac req = Some (signature_of c other) ->
        calculateWebhookHmac (macSecretBase64 c) other
        <> calculateWebhookHmac (macSecretBase64 c) (rawBody req) ->
        out = Responded (error_response 401 "Invalid signature")
        /\ st' = st /\ existsb mutates tr = false).
Proof.
  intros Hrun Hparse Hping signature_of. subst signature_of. cbv beta.
  change (fun c bytes => "hmac-sha256=" +:+ calculateWebhookHmac (macSecretBase64 c) bytes)
    with (fun c bytes => expectedSignature (macSecretBase64 c) bytes).
  split; [|split].
  - intros Hpass. apply handler_Run in Hrun.
    assert (Hin : In EvReadTimestamp tr).
    { destruct Hpass as [Hin|Hfwd]; [assumption|].
      destruct (Run_unchanged_or_accepted _ _ _ _ _ _ _ Hrun)
        as [[_ Hpure] | (b & c & inbox & _ & _ & _ & _ & ->)].
      - apply mutates_is_post in Hpure. congruence.
      - unfold trace_forward, trace_idempotency, trace_ratelimit. rewrite <- !app_assoc.
        apply timestamp_read_after_signature. }
    destruct Hrun; open_paths;
      try (exfalso; revert Hin; open_traces; cbn [app In]; intuition discriminate).
    all: exists c; split; assumption.
  - intros c Hcfg Hmac.
    pose proof (signed_reaches_freshness _ _ _ _ Hparse Hping Hcfg Hmac) as Hreach.
    rewrite (handler_after_signature config _ clk _ _ _ Hreach) in Hrun.
    destruct (timestamp_throws body);
      [|destruct (stale config clk body);
        [|destruct (rate_limited config clk st);
          [|destruct (key_throws body);
            [|destruct (isWebhookProcessed (key_of body) (processed st));
              [|destruct (worker st)]]]]];
      apply triple_eq in Hrun as (_ & _ & <-).
    + apply in_app_iff. right. now left.
    + rewrite <- (app_nil_r (trace_freshness _ _ _ _)).
      apply timestamp_read_after_signature.
    + apply timestamp_read_after_signature.
    + unfold trace_ratelimit. rewrite <- !app_assoc.
      apply timestamp_read_after_signature.
    + unfold trace_idempotency, trace_ratelimit. rewrite <- !app_assoc.
      apply timestamp_read_after_signature.
    + unfold trace_forward, trace_idempotency, trace_ratelimit. rewrite <- !app_assoc.
      apply timestamp_read_after_signature.
    + unfold trace_forward, trace_idempotency, trace_ratelimit. rewrite <- !app_assoc.
      apply timestamp_read_after_signature.
  - intros c other Hcfg Hmac Hdiff.
    assert (Hcmp : reaches_comparison req st body c
                     (expectedSignature (macSecretBase64 c) other)).
    { unfold reaches_comparison, reaches_signature. repeat split; try assumption.
      discriminate. }
    assert (Hne : expectedSignature (macSecretBase64 c) other
                  <> expectedSignature (macSecretBase64 c) (rawBody req)).
    { intros E. now apply expectedSignature_inj in E. }
    destruct (Nat.eq_dec
                (List.length (Buffer_from (expectedSignature (macSecretBase64 c)
                                             (rawBody req))))
                (List.length (Buffer_from (expectedSignature (macSecretBase64 c) other))))
      as [L|L].
    + pose proof (Run_handler _ _ _ _ _ _ _
                    (Run_wrong_signature config req clk st body c _ Hcmp L Hne)) as E.
      rewrite E in Hrun. apply triple_eq in Hrun as (<- & <- & <-). now repeat split.
    + pose proof (Run_handler _ _ _ _ _ _ _
                    (Run_wrong_length config req clk st body c _ Hcmp L)) as E.
      rewrite E in Hrun. apply triple_eq in Hrun as (<- & <- & <-). now repeat split.
Qed.

End Claims.

(** ** The comparison of the signature and the length of the header *)

(** When the header does not have the length of the expected signature,
    the handler answers after comparing the lengths:
    [crypto.timingSafeEqual] is not called. *)
Lemma length_mismatch_skips_comparison `{Platform} (config : Config) (req : Request)
    (clk : Clock) (st : State) (body : value) (c : WebhookConfig) (sig : string) :
  reaches_comparison req st body c sig ->
  List.length (Buffer_from (expectedSignature (macSecretBase64 c) (rawBody req)))
  <> List.length (Buffer_from sig) ->
  let tr := trace_probe req ++ trace_compare (macSecretBase64 c) (rawBody req) sig in
  handler config req clk st = (Responded (error_response 401 "Invalid signature"), st, tr)
  /\ ~ In EvTimingSafeEqual tr.
Proof.
  intros Hcmp L tr. split.
  - apply Run_handler. now apply Run_wrong_length with body.
  - subst tr. unfold trace_probe, trace_compare. cbn [app In]. intuition discriminate.
Qed.

(** The bearer middleware pads the two tokens to a common length. *)
Lemma pad_to_length (n : nat) (bytes : list ascii) :
  List.length bytes <= n -> List.length (pad_to n bytes) = n.
Proof.
  intros L. unfold pad_to. rewrite length_app, repeat_length. lia.
Qed.

(** The bearer middleware calls [timingSafeEqual] once for every token
    presented, whatever its length, and the call does not throw. *)
Lemma bearerAuth_always_compares (bearerToken bearer : string) :
  bearer <> EmptyString ->
  snd (bearerAuth false bearerToken (Some bearer)) = 1
  /\ fst (bearerAuth false bearerToken (Some bearer)) <> AuthError 500 "RangeError".
Proof.
  intros Hne. unfold bearerAuth. cbv zeta.
  destruct bearer as [|b0 bearer]; [contradiction|].
  generalize (String b0 bearer). intros provided.
  set (n := Nat.max _ _).
  rewrite timingSafeEqual_spec
    by (rewrite !pad_to_length; [reflexivity | apply Nat.le_max_r | apply Nat.le_max_l]).
  destruct (_ || _); split; try reflexivity; discriminate.
Qed.

(** * The claims on the sample platform *)

Section SampleRuns.
Import Sample Scenario.

(** The notification, signed, is accepted at process start. *)
Lemma notification_accepted :
  exists tr,
    handler config (signed text_notification) (at_time (t0 + 5)) start
    = (Responded success, accepted, tr)
    /\ forwards tr = true.
Proof. eexists. split; reflexivity. Qed.

(** The body [null] parses, and the ping detection throws on it. *)
Lemma null_body_throws :
  handler config null (at_time t0) start
  = (Threw "TypeError", start, [EvReadBody; EvJsonParse "null"; EvIsPing]).
Proof. reflexivity. Qed.

(** C8 on an unparseable payload. *)
Lemma rejection_leaves_state_unchanged_witness :
  let r := error_response 400 "Invalid JSON payload" in
  let tr := [EvReadBody; EvJsonParse "{"] in
  handler config malformed (at_time t0) start = (Responded r, start, tr)
  /\ rejection_of r = Some MalformedInput
  /\ (start = start
      /\ processed start = processed start
      /\ lastProcessedTime start = lastProcessedTime start
      /\ existsb mutates tr = false).
Proof.
  intros r tr. split; [reflexivity|]. split; [reflexivity|].
  apply (rejection_leaves_state_unchanged (H := platform) config malformed (at_time t0) start start
           (Responded r) tr r MalformedInput); reflexivity.
Defined.

(** C6 on the empty object, sent without a signature header. *)
Lemma ping_acknowledged_without_checks_witness :
  content_mac ping = None
  /\ handler config ping (at_time t0) start
     = (Responded success, start, [EvReadBody; EvJsonParse (rawBody ping); EvIsPing]).
Proof.
  split; [reflexivity|].
  apply (ping_acknowledged_without_checks (H := platform) config ping (at_time t0) start (JObj []));
    reflexivity.
Defined.

(** C6 as the specification states it fails on the body [null]: the body
    parses, it has none of the fields [base], [webhook] and [timestamp],
    and the ping detection throws on it, since [in] takes an object: the
    handler ends with a [TypeError], not with the acknowledgement. *)
Lemma ping_primitive_counterexample :
  exists body tr,
    JSON_parse (rawBody null) = Some body
    /\ body = JNull
    /\ (forall k, js_in k body <> Some true)
    /\ handler config null (at_time t0) start = (Threw "TypeError", start, tr)
    /\ Threw "TypeError" <> Responded success.
Proof.
  eexists _, _.
  split; [reflexivity|]. split; [reflexivity|]. split; [discriminate|].
  split; [reflexivity | discriminate].
Qed.

(** C5 on the accepted notification. *)
Lemma mark_precedes_forward_witness :
  forwards (snd (handler config (signed text_notification) (at_time (t0 + 5)) start)) = true
  /\ exists pre body,
       JSON_parse (rawBody (signed text_notification)) = Some body
       /\ snd (handler config (signed text_notification) (at_time (t0 + 5)) start)
          = pre ++ [EvMark (key_of body); EvPostMessage (WEBHOOK_RECEIVED body)]
       /\ forwards pre = false
       /\ isWebhookProcessed (key_of body) (processed accepted) = true
       /\ Responded success = Responded success.
Proof.
  split; [reflexivity|].
  apply (mark_precedes_forward (H := platform) config (signed text_notification) (at_time (t0 + 5))
           start accepted (Responded success)); reflexivity.
Defined.

(** C4 on the accepted notification, which goes through the seven steps
    and ends at the last one, and on an unparseable payload, which ends at
    the first. *)
Lemma stages_run_in_order_witness :
  let req := signed text_notification in
  let clk := at_time (t0 + 5) in
  let tr := snd (handler config req clk start) in
  let out' := Responded (error_response 400 "Invalid JSON payload") in
  let tr' := [EvReadBody; EvJsonParse "{"] in
  first_stop (checks config req clk start) = Some (SForward, Responded success)
  /\ stages_run tr = pipeline_order
  /\ (exists s,
        first_stop (checks config req clk start) = Some (s, Responded success)
        /\ stages_run tr = stages_through s
        /\ ((accepted = start /\ existsb mutates tr = false)
            \/ (s = SForward /\ Responded success = Responded success
                /\ forwards tr = true)))
  /\ first_stop (checks config malformed (at_time t0) start) = Some (SParse, out')
  /\ (out' = Responded (error_response 400 "Invalid JSON payload")
      /\ stages_run tr' = [SParse]
      /\ start = start
      /\ existsb mutates tr' = false).
Proof.
  intros req clk tr out' tr'.
  split; [reflexivity|]. split; [reflexivity|]. split; [|split; [reflexivity|]].
  - apply (proj1 (stages_run_in_order (H := platform) config req clk start accepted
                    (Responded success) tr ltac:(reflexivity))).
  - apply (proj2 (stages_run_in_order (H := platform) config malformed (at_time t0)
                    start start out' tr' ltac:(reflexivity))).
    reflexivity.
Defined.

(** C7 on four notifications with the expected signature: one whose
    timestamp does not parse, the notification 301 seconds after its
    timestamp, the notification 5 ms after its timestamp, and one without
    timestamp. The first two are rejected; the last two pass the freshness
    step, and the rate limiter runs. *)
Lemma freshness_window_witness :
  let unparseable := signed text_bad_timestamp in
  let req := signed text_notification in
  let bare := signed text_no_timestamp in
  let late := at_time (t0 + 301000) in
  let soon := at_time (t0 + 5) in
  let rejected := Responded (error_response 401 "Expired timestamp") in
  fst (fst (handler config unparseable soon start)) = rejected
  /\ (rejected = rejected /\ start = start)
  /\ fst (fst (handler config req late start)) = rejected
  /\ (rejected = rejected /\ start = start)
  /\ fst (fst (handler config req soon start)) = Responded success
  /\ (Responded success <> rejected
      /\ In SRateLimit (stages_run (snd (handler config req soon start))))
  /\ fst (fst (handler config bare soon start)) = Responded success
  /\ (Responded success <> rejected
      /\ In SRateLimit (stages_run (snd (handler config bare soon start)))).
Proof.
  intros unparseable req bare late soon rejected.
  split; [reflexivity|]. split; [|split; [reflexivity|]].
  2: split; [|split; [reflexivity|]].
  3: split; [|split; [reflexivity|]].
  - apply (proj1 (freshness_window (H := platform) config unparseable soon start start
                    rejected (snd (handler config unparseable soon start))
                    (JObj [webhook_field; ("timestamp", JStr "yesterday")]) secret
                    ltac:(reflexivity) ltac:(reflexivity)
                    ltac:(reflexivity) ltac:(reflexivity)
                    ltac:(reflexivity))
             (JStr "yesterday"));
      reflexivity.
  - apply (proj1 (proj2 (freshness_window (H := platform) config req late start start
                           rejected (snd (handler config req late start))
                           body_notification secret
                           ltac:(reflexivity) ltac:(reflexivity)
                           ltac:(reflexivity) ltac:(reflexivity)
                           ltac:(reflexivity)))
             (JStr "2024-01-01T00:00:00.000Z") t0);
      reflexivity.
  - apply (proj1 (proj2 (proj2 (freshness_window (H := platform) config req soon start
                                  accepted (Responded success)
                                  (snd (handler config req soon start))
                                  body_notification secret
                                  ltac:(reflexivity) ltac:(reflexivity)
                                  ltac:(reflexivity) ltac:(reflexivity)
                                  ltac:(reflexivity))))
             (JStr "2024-01-01T00:00:00.000Z") t0);
      [reflexivity | reflexivity | reflexivity | apply Z.leb_le; reflexivity].
  - apply (proj2 (proj2 (proj2 (freshness_window (H := platform) config bare soon start
                                  (snd (fst (handler config bare soon start)))
                                  (Responded success)
                                  (snd (handler config bare soon start))
                                  (JObj [webhook_field]) secret
                                  ltac:(reflexivity) ltac:(reflexivity)
                                  ltac:(reflexivity) ltac:(reflexivity)
                                  ltac:(reflexivity)))));
      reflexivity.
Defined.

(** The two requests of the rate limit scenario: the notification is
    accepted at [t0 + 5], and a second notification arrives 2 ms later,
    with the interval configured to 1 second. *)
Lemma rate_limit_scenario :
  webhookRateLimit config = 1%Z
  /\ lastProcessedTime accepted = (t0 + 5)%Z
  /\ (now_ratelimit (at_time (t0 + 7)) - lastProcessedTime accepted = 2)%Z
  /\ reaches_ratelimit config (signed text_notification') (at_time (t0 + 7)) accepted
       body_notification' secret.
Proof.
  split; [reflexivity|]. split; [reflexivity|]. split; [reflexivity|].
  split; [split|]; [|reflexivity|reflexivity].
  apply signed_reaches_freshness; reflexivity.
Qed.

(** C9 as the specification states it fails on the scenario: the
    notification that arrives 2 ms after the accepted one, with the interval
    at 1000 ms, is rejected with the hint 1 (one second), not 998. *)
Lemma retry_after_counterexample :
  exists tr1 r tr2,
    handler config (signed text_notification) (at_time (t0 + 5)) start
    = (Responded success, accepted, tr1)
    /\ forwards tr1 = true
    /\ handler config (signed text_notification') (at_time (t0 + 7)) accepted
       = (Responded r, accepted, tr2)
    /\ http_status r = 429%Z
    /\ response_body r = RateLimitBody "Rate limit exceeded" 1
    /\ response_body r <> RateLimitBody "Rate limit exceeded" 998
    /\ (webhookRateLimit config * 1000
        - (now_ratelimit (at_time (t0 + 7)) - lastProcessedTime accepted) = 998)%Z.
Proof.
  eexists _, _, _.
  split; [reflexivity|]. split; [reflexivity|].
  split; [reflexivity|]. split; [reflexivity|]. split; [reflexivity|].
  split; [discriminate | reflexivity].
Qed.

(** C9, as the code has it, on the scenario: the hint is 1 second. *)
Lemma rate_limit_retry_after_witness :
  let req := signed text_notification' in
  let clk := at_time (t0 + 7) in
  let out := fst (fst (handler config req clk accepted)) in
  let remaining :=
    (lastProcessedTime accepted + webhookRateLimit config * 1000 - now_ratelimit clk)%Z in
  remaining = 998%Z
  /\ ceil_seconds remaining = 1%Z
  /\ (out = Responded {| http_status := 429;
                         response_body :=
                           RateLimitBody "Rate limit exceeded" (ceil_seconds remaining) |}
      /\ accepted = accepted
      /\ (remaining <= 1000 * ceil_seconds remaining < remaining + 1000)%Z).
Proof.
  intros req clk out remaining. split; [reflexivity|]. split; [reflexivity|].
  apply (rate_limit_retry_after (H := platform) config req clk accepted accepted out
           (snd (handler config req clk accepted)) body_notification' secret).
  - reflexivity.
  - split; [split|]; [|reflexivity|reflexivity].
    apply signed_reaches_freshness; reflexivity.
  - reflexivity.
  - reflexivity.
Defined.

(** C10 on the scenario, run from process start: the 429 of the second
    request comes after the acceptance of the first. *)
Lemma first_notification_not_rate_limited_witness :
  let reqs := [(signed text_notification, at_time (t0 + 5));
               (signed text_notification', at_time (t0 + 7))] in
  let outs := fst (run config reqs start) in
  (exists r tr, outs !! 1 = Some (Responded r, tr) /\ http_status r = 429%Z)
  /\ (forall clk, rate_limited config clk start = false)
  /\ (exists (j : nat) (tr' : list Event),
        j < 1 /\ outs !! j = Some (Responded success, tr') /\ forwards tr' = true).
Proof.
  intros reqs outs.
  pose proof (first_notification_not_rate_limited (H := platform) config (Some secret) ∅ (Some []) reqs
                outs (snd (run config reqs start))
                (surjective_pairing (run config reqs start)))
    as [Hguard Hafter].
  split; [eexists _, _; split; reflexivity|].
  split; [exact Hguard|].
  eapply (Hafter 1); reflexivity.
Defined.



(** C1 on the notification sent with the signature of another body. *)
Lemma signature_verification_witness :
  let out := Responded (error_response 401 "Invalid signature") in
  let tr := snd (handler config other_signature (at_time (t0 + 5)) start) in
  calculateWebhookHmac "czNjcjN0" text_notification'
  <> calculateWebhookHmac "czNjcjN0" text_notification
  /\ (out = Responded (error_response 401 "Invalid signature")
      /\ start = start /\ existsb mutates tr = false).
Proof.
  intros out tr.
  assert (Hdiff : calculateWebhookHmac "czNjcjN0" text_notification'
                  <> calculateWebhookHmac "czNjcjN0" text_notification)
    by (vm_compute; discriminate).
  split; [exact Hdiff|].
  apply (proj2 (proj2 (signature_verification (H := platform) config other_signature (at_time (t0 + 5))
                         start start out tr body_notification
                         ltac:(reflexivity) ltac:(reflexivity)
                         ltac:(reflexivity)))
           secret text_notification');
    [reflexivity | reflexivity | exact Hdiff].
Defined.

(** C3 on a header that is shorter than a signature: the handler rejects
    it after the test of the lengths, and [crypto.timingSafeEqual] is never
    called; the bearer middleware, on a token of another length than the
    configured one, calls it. *)
Theorem short_header_skips_timingSafeEqual :
  let tr := [EvReadBody; EvJsonParse text_notification; EvIsPing; EvGetHeader;
             EvGetWebhookConfig; EvHmac "czNjcjN0" text_notification;
             EvCompareLength 85 12] in
  handler config short_header (at_time (t0 + 5)) start
  = (Responded (error_response 401 "Invalid signature"), start, tr)
  /\ ~ In EvTimingSafeEqual tr
  /\ bearerAuth false "token" (Some "t") = (AuthError 401 "Unauthorized", 1).
Proof.
  intros tr. split; [reflexivity|]. split; [|reflexivity].
  subst tr. cbn [In]. intuition discriminate.
Qed.

End SampleRuns.

(** * Further properties of the handler *)

Section HandlerEdges.
Context `{Platform}.
Variable config : Config.

(** X1. A body that parses to a JSON primitive ([null], a boolean, a number
    or a string) makes the ping detection throw: the handler ends with an
    uncaught [TypeError] after read, parse and [isPing], before any
    security step, and changes nothing. *)
Theorem primitive_body_throws (req : Request) (clk : Clock) (st : State) (body : value) :
  JSON_parse (rawBody req) = Some body ->
  is_primitive body = true ->
  handler config req clk st
  = (Threw "TypeError", st, [EvReadBody; EvJsonParse (rawBody req); EvIsPing]).
Proof.
  intros Hparse Hprim. apply Run_handler, Run_type_error with body; [assumption|].
  destruct body; try discriminate Hprim; reflexivity.
Qed.

(** X2. A body that parses to an array, whatever its elements, is a ping: it
    is acknowledged with success without any security step. *)
Theorem array_body_is_ping (req : Request) (clk : Clock) (st : State)
    (items : list value) :
  JSON_parse (rawBody req) = Some (JArr items) ->
  handler config req clk st
  = (Responded success, st, [EvReadBody; EvJsonParse (rawBody req); EvIsPing]).
Proof.
  intros Hparse. apply Run_handler, Run_ping with (JArr items); [assumption|].
  reflexivity.
Qed.

(** X3. An object that has one of the fields [base], [webhook], [timestamp] is
    not a ping, and without a signature header (absent or empty) it is
    answered 401 before the webhook configuration is fetched: the answer
    is the same when no configuration exists. *)
Theorem missing_header_rejected_first (req : Request) (clk : Clock) (st : State)
    (fields : list (string * value)) :
  JSON_parse (rawBody req) = Some (JObj fields) ->
  has_field "base" fields || has_field "webhook" fields || has_field "timestamp" fields
  = true ->
  content_mac req = None \/ content_mac req = Some EmptyString ->
  handler config req clk st
  = (Responded (error_response 401 "Missing signature header"), st,
     [EvReadBody; EvJsonParse (rawBody req); EvIsPing; EvGetHeader]).
Proof.
  intros Hparse Hfield Hmac.
  apply Run_handler, Run_missing_header with (JObj fields); [|assumption].
  split; [assumption|]. unfold isPing. cbn [js_in].
  destruct (has_field "base" fields); [reflexivity|].
  destruct (has_field "webhook" fields); [reflexivity|].
  cbn in Hfield. now rewrite Hfield.
Qed.

(** X4. Without a webhook configuration the handler fails closed: every
    notification that is not a ping and has a signature header is answered
    500, whatever the header is, and no HMAC is computed. *)
Theorem unconfigured_fails_closed (req : Request) (clk : Clock) (st : State)
    (body : value) (signatureHeader : string) :
  JSON_parse (rawBody req) = Some body ->
  isPing body = Some false ->
  content_mac req = Some signatureHeader ->
  signatureHeader <> EmptyString ->
  webhookConfig st = None ->
  handler config req clk st
  = (Responded (error_response 500 "Webhook not configured"), st,
     [EvReadBody; EvJsonParse (rawBody req); EvIsPing; EvGetHeader; EvGetWebhookConfig]).
Proof.
  intros Hparse Hping Hmac Hne Hcfg.
  apply Run_handler, Run_not_configured with body signatureHeader; try assumption.
  now split.
Qed.

(** X5. The handler forwards nothing that a step would reject: a run that
    posts to the worker has a body that parses and is not a ping, a header
    that is the expected signature under the configured secret, a
    timestamp that is missing, falsy or within the window, a rate limiter
    that is idle (nothing accepted yet, or the interval has elapsed), a key
    that the ledger does not hold, and a worker. *)
Theorem forwarded_passed_every_step (req : Request) (clk : Clock) (st st' : State)
    (out : Outcome) (tr : list Event) :
  handler config req clk st = (out, st', tr) ->
  forwards tr = true ->
  exists body c inbox,
    JSON_parse (rawBody req) = Some body
    /\ isPing body = Some false
    /\ webhookConfig st = Some c
    /\ content_mac req
       = Some ("hmac-sha256=" +:+ calculateWebhookHmac (macSecretBase64 c) (rawBody req))
    /\ (forall ts, get_prop "timestamp" body = Some ts -> truthy (Some ts) = true ->
          exists t, Date_getTime ts = Some (Some t)
                    /\ (Z.abs (now_freshness clk - t) <= webhookTimestampWindow config * 1000)%Z)
    /\ ((lastProcessedTime st <= 0)%Z
        \/ (webhookRateLimit config * 1000 <= now_ratelimit clk - lastProcessedTime st)%Z)
    /\ isWebhookProcessed (key_of body) (processed st) = false
    /\ worker st = Some inbox.
Proof.
  intros Hrun Hfwd. apply handler_Run in Hrun.
  destruct (Run_unchanged_or_accepted _ _ _ _ _ _ _ Hrun)
    as [[_ Hpure] | (body & c & inbox & Hreach & Hw & _)].
  { apply mutates_is_post in Hpure. congruence. }
  exists body, c, inbox. open_paths. repeat (split; [assumption|]).
  split; [|split; [|split; assumption]].
  - intros ts Hts Htruthy.
    match goal with
    | Hs : stale _ _ _ = false, Ht : timestamp_throws _ = false |- _ =>
        unfold stale, expired in Hs; unfold timestamp_throws in Ht;
        rewrite Hts, Htruthy in Hs, Ht; cbn [andb] in Hs, Ht
    end.
    destruct (Date_getTime ts) as [[t|]|]; try discriminate.
    exists t. split; [reflexivity|]. now apply Z.ltb_ge.
  - match goal with Hl : rate_limited _ _ _ = false |- _ => unfold rate_limited in Hl;
      apply andb_false_iff in Hl as [Hl|Hl]; apply Z.ltb_ge in Hl end; [left | right];
      assumption.
Qed.

(** X6. What an accepted run changes: the rate limit tracker becomes the
    reading of the clock, the ledger gains the key of the body, with the
    mode [incremental], and keeps every other key as it was, the worker
    receives one message more, which carries the body as parsed, and the
    webhook configuration stays. *)
Theorem forwarded_updates_state (req : Request) (clk : Clock) (st st' : State)
    (out : Outcome) (tr : list Event) :
  handler config req clk st = (out, st', tr) ->
  forwards tr = true ->
  exists body inbox,
    JSON_parse (rawBody req) = Some body
    /\ lastProcessedTime st' = now_accept clk
    /\ webhookConfig st' = webhookConfig st
    /\ worker st = Some inbox
    /\ worker st' = Some (inbox ++ [WEBHOOK_RECEIVED body])
    /\ posted tr = [WEBHOOK_RECEIVED body]
    /\ (exists mk, processed st' !! key_of body = Some mk /\ marker_mode mk = "incremental")
    /\ (forall key, key <> key_of body -> processed st' !! key = processed st !! key).
Proof.
  intros Hrun Hfwd. apply handler_Run in Hrun.
  destruct (Run_unchanged_or_accepted _ _ _ _ _ _ _ Hrun)
    as [[_ Hpure] | (body & c & inbox & Hreach & Hw & _ & -> & ->)].
  { apply mutates_is_post in Hpure. congruence. }
  exists body, inbox. open_paths.
  unfold accepted_state, markWebhookProcessed. cbn [lastProcessedTime webhookConfig worker processed].
  repeat (split; [first [assumption | reflexivity]|]).
  split; [|split].
  - open_traces. unfold posted. rewrite !flat_map_app. cbn [flat_map app].
    now destruct (truthy (get_prop "timestamp" body)).
  - exists (marker_of body). split; [apply lookup_insert_eq | reflexivity].
  - intros key Hne. now apply lookup_insert_ne.
Qed.

End HandlerEdges.

(** ** The rate limiter *)

Section RateLimiter.
Context `{Platform}.
Variable config : Config.

(** A 429 is the answer of the rate limiter, taken when its guard holds. *)
Lemma status_429_rate_limited (req : Request) (clk : Clock) (st st' : State)
    (r : Response) (tr : list Event) :
  handler config req clk st = (Responded r, st', tr) ->
  http_status r = 429%Z ->
  rate_limited config clk st = true
  /\ r = rate_limit_response config clk st
  /\ st' = st
  /\ exists body c, tr = trace_ratelimit req clk st c body.
Proof.
  intros Hrun Hstatus. apply handler_Run in Hrun.
  inversion Hrun; subst; try discriminate Hstatus.
  repeat split; try assumption; try reflexivity. eauto.
Qed.

(** X7. The retry-after hint is at least one second, and, when the clock has
    not gone back since the last acceptance, at most the configured
    interval, which is then positive. *)
Theorem retry_after_bounds (req : Request) (clk : Clock) (st st' : State)
    (r : Response) (tr : list Event) :
  handler config req clk st = (Responded r, st', tr) ->
  http_status r = 429%Z ->
  exists retryAfter,
    response_body r = RateLimitBody "Rate limit exceeded" retryAfter
    /\ (1 <= retryAfter)%Z
    /\ ((lastProcessedTime st <= now_ratelimit clk)%Z ->
        (retryAfter <= webhookRateLimit config)%Z /\ (0 < webhookRateLimit config)%Z).
Proof.
  intros Hrun Hstatus.
  destruct (status_429_rate_limited _ _ _ _ _ _ Hrun Hstatus) as (Hlim & -> & _).
  exists (retry_after config clk st). split; [reflexivity|].
  unfold rate_limited in Hlim. apply andb_true_iff in Hlim as [Hpos Hsoon].
  apply Z.ltb_lt in Hpos, Hsoon. unfold retry_after.
  pose proof (ceil_seconds_bounds
                (webhookRateLimit config * 1000
                 - (now_ratelimit clk - lastProcessedTime st))).
  split; [lia|]. intros Hclock. lia.
Qed.

(** X8. Once the interval has elapsed since the last acceptance, no request is
    answered 429. *)
Theorem interval_elapsed_not_limited (req : Request) (clk : Clock) (st st' : State)
    (r : Response) (tr : list Event) :
  handler config req clk st = (Responded r, st', tr) ->
  (lastProcessedTime st + webhookRateLimit config * 1000 <= now_ratelimit clk)%Z ->
  http_status r <> 429%Z.
Proof.
  intros Hrun Helapsed Hstatus.
  destruct (status_429_rate_limited _ _ _ _ _ _ Hrun Hstatus) as (Hlim & _).
  unfold rate_limited in Hlim. apply andb_true_iff in Hlim as [_ Hsoon].
  apply Z.ltb_lt in Hsoon. lia.
Qed.

(** X9. The rate limiter answers before the ledger is consulted: a request
    that is answered 429 has looked no key up, so a duplicate that arrives
    inside the interval gets 429 and not the acknowledgement of a
    duplicate. *)
Theorem rate_limit_before_ledger (req : Request) (clk : Clock) (st st' : State)
    (r : Response) (tr : list Event) :
  handler config req clk st = (Responded r, st', tr) ->
  http_status r = 429%Z ->
  looks_up tr = false /\ r <> already_processed /\ (0 < lastProcessedTime st)%Z.
Proof.
  intros Hrun Hstatus.
  destruct (status_429_rate_limited _ _ _ _ _ _ Hrun Hstatus)
    as (Hlim & -> & _ & body & c & ->).
  split; [apply trace_ratelimit_no_lookup|]. split; [discriminate|].
  unfold rate_limited in Hlim. apply andb_true_iff in Hlim as [Hpos _].
  now apply Z.ltb_lt.
Qed.

End RateLimiter.

(** ** The idempotency key *)

Section Keys.
Context `{Platform}.
Variable config : Config.

(** A request whose key the ledger holds is not forwarded. *)
Lemma marked_key_not_forwarded (req : Request) (clk : Clock) (st st' : State)
    (out : Outcome) (tr : list Event) (body : value) :
  handler config req clk st = (out, st', tr) ->
  JSON_parse (rawBody req) = Some body ->
  isWebhookProcessed (key_of body) (processed st) = true ->
  forwards tr = false
  /\ st' = st
  /\ (looks_up tr = true -> out = Responded already_processed).
Proof.
  intros Hrun Hparse Hmarked. apply handler_Run in Hrun.
  assert (Hpure : st' = st /\ existsb mutates tr = false).
  { destruct (Run_unchanged_or_accepted _ _ _ _ _ _ _ Hrun)
      as [? | (body' & c & inbox & Hreach & _)]; [assumption|].
    open_paths. congruence. }
  destruct Hpure as [-> Hpure].
  split; [now apply mutates_is_post|]. split; [reflexivity|].
  intros Hlook. destruct Hrun; try discriminate Hlook; open_paths.
  - now rewrite trace_freshness_no_lookup in Hlook.
  - now rewrite trace_ratelimit_no_lookup in Hlook.
  - now rewrite trace_webhookId_no_lookup in Hlook.
  - reflexivity.
  - congruence.
  - congruence.
Qed.

(** X10. Duplicates are recognised by the key string alone: after a
    notification has been accepted, a later one whose key
    [`${webhookId}:${timestamp}`] is the same string is not forwarded, and
    is acknowledged as already processed when it reaches the idempotency
    step, also when its identifier and timestamp are other values. *)
Theorem same_key_is_duplicate (req1 req2 : Request) (clk1 clk2 : Clock)
    (body1 body2 : value) (between : list (Request * Clock))
    (st0 st1 st2 st3 : State) (out1 out2 : Outcome) (tr1 tr2 : list Event)
    (outs : list (Outcome * list Event)) :
  JSON_parse (rawBody req1) = Some body1 ->
  JSON_parse (rawBody req2) = Some body2 ->
  idempotencyKey (webhookId_of body1) (get_prop "timestamp" body1)
  = idempotencyKey (webhookId_of body2) (get_prop "timestamp" body2) ->
  handler config req1 clk1 st0 = (out1, st1, tr1) ->
  forwards tr1 = true ->
  run config between st1 = (outs, st2) ->
  handler config req2 clk2 st2 = (out2, st3, tr2) ->
  forwards tr2 = false
  /\ st3 = st2
  /\ (looks_up tr2 = true -> out2 = Responded already_processed).
Proof.
  intros Hparse1 Hparse2 Hkey Hrun1 Hfwd1 Hbetween Hrun2.
  destruct (forwarded_is_marked _ _ _ _ _ _ _ Hrun1 Hfwd1) as (body & Hbody & Hmarked).
  assert (body = body1) as -> by congruence.
  unfold key_of in Hmarked. rewrite Hkey in Hmarked.
  pose proof (run_keeps_markers _ _ _ _ _ _ Hbetween Hmarked) as Hmarked2.
  exact (marked_key_not_forwarded _ _ _ _ _ _ _ Hrun2 Hparse2 Hmarked2).
Qed.

(** X11. The key does not determine the identifier and the timestamp. A
    missing identifier gives the same key as the identifier [undefined],
    a missing timestamp the same key as the timestamp [undefined], and a
    colon can move from the identifier to the timestamp. *)
Theorem idempotencyKey_collisions (id ts : option value) (a b c : string) :
  idempotencyKey None ts = idempotencyKey (Some (JStr "undefined")) ts
  /\ idempotencyKey id None = idempotencyKey id (Some (JStr "undefined"))
  /\ idempotencyKey (Some (JStr (a +:+ ":" +:+ b))) (Some (JStr c))
     = idempotencyKey (Some (JStr a)) (Some (JStr (b +:+ ":" +:+ c))).
Proof.
  unfold idempotencyKey. cbn [template ToString]. repeat split.
  assert (Hassoc : forall x y z : string, (x +:+ y) +:+ z = x +:+ (y +:+ z)).
  { induction x as [|ch x IH]; intros y z; [reflexivity|].
    change (String ch ((x +:+ y) +:+ z) = String ch (x +:+ (y +:+ z))). now rewrite IH. }
  now rewrite !Hassoc.
Qed.

End Keys.

(** ** Conversions that throw *)

Section ConversionErrors.
Context `{Platform}.
Variable config : Config.

(** A body with a timestamp is not a ping. *)
Lemma timestamp_not_ping (body ts : value) :
  get_prop "timestamp" body = Some ts -> isPing body = Some false.
Proof.
  destruct body as [| | | | |fields]; try discriminate. cbn [get_prop]. intros Hts.
  unfold isPing. cbn [js_in]. unfold has_field at 3. rewrite Hts.
  destruct (has_field "base" fields); [reflexivity|].
  destruct (has_field "webhook" fields); reflexivity.
Qed.

(** X18. A notification with the expected signature whose timestamp is an
    object with a key [toString] of its own makes [new Date(timestamp)]
    throw: the handler ends with an uncaught [TypeError] after the
    signature step, when it has read the timestamp and before it reads the
    clock; it answers no 401, and changes nothing. *)
Theorem object_timestamp_throws (req : Request) (clk : Clock) (st : State)
    (body : value) (c : WebhookConfig) (fields : list (string * value)) :
  JSON_parse (rawBody req) = Some body ->
  webhookConfig st = Some c ->
  content_mac req = Some (expectedSignature (macSecretBase64 c) (rawBody req)) ->
  get_prop "timestamp" body = Some (JObj fields) ->
  has_field "toString" fields = true ->
  handler config req clk st
  = (Threw "TypeError", st,
     trace_signature req c (expectedSignature (macSecretBase64 c) (rawBody req))
     ++ [EvReadTimestamp]).
Proof.
  intros Hparse Hcfg Hmac Hts Hown.
  apply Run_handler, Run_timestamp_throws with body.
  - apply signed_reaches_freshness; try assumption.
    now apply timestamp_not_ping with (JObj fields).
  - unfold timestamp_throws. rewrite Hts. cbn [truthy andb Date_getTime ToString].
    now rewrite Hown.
Qed.

(** X19. A notification that passes the rate limiter and whose webhook
    identifier is an object with a key [toString] of its own makes the
    template literal of the key throw: the handler ends with an uncaught
    [TypeError] when it has read the identifier, before it looks a key up,
    and changes nothing. *)
Theorem object_webhookId_throws (req : Request) (clk : Clock) (st : State)
    (body : value) (c : WebhookConfig) (fields : list (string * value)) :
  reaches_idempotency config req clk st body c ->
  webhookId_of body = Some (JObj fields) ->
  has_field "toString" fields = true ->
  handler config req clk st
  = (Threw "TypeError", st, trace_ratelimit req clk st c body ++ [EvReadWebhookId])
  /\ looks_up (trace_ratelimit req clk st c body ++ [EvReadWebhookId]) = false.
Proof.
  intros Hreach Hid Hown. split; [|apply trace_webhookId_no_lookup].
  apply Run_handler, Run_key_throws; [assumption|].
  unfold key_throws, idempotencyKey. rewrite Hid. cbn [template ToString].
  now rewrite Hown.
Qed.

End ConversionErrors.

(** ** What the worker receives along a run *)

Section Deliveries.
Context `{Platform}.
Variable config : Config.

Lemma pure_trace_posts_nothing (tr : list Event) :
  existsb mutates tr = false -> posted tr = [].
Proof.
  induction tr as [|e tr IH]; [reflexivity|]. cbn [existsb].
  intros [He Htr]%orb_false_iff. unfold posted in *. cbn [flat_map].
  rewrite (IH Htr). now destruct e.
Qed.

Lemma accepted_trace_posts_body (req : Request) (clk : Clock) (st : State)
    (c : WebhookConfig) (body : value) :
  posted (trace_forward req clk st c body ++ trace_accept clk body)
  = [WEBHOOK_RECEIVED body].
Proof.
  unfold posted. rewrite flat_map_app.
  change (flat_map _ (trace_forward req clk st c body))
    with (posted (trace_forward req clk st c body)).
  now rewrite (pure_trace_posts_nothing _ (trace_forward_pure req clk st c body)).
Qed.

(** X12. The worker receives exactly the messages that the runs post, in the
    order of the runs, after those it had; and when there is no worker no
    run posts anything. *)
Theorem worker_receives_posted (reqs : list (Request * Clock)) :
  forall (st final : State) (outs : list (Outcome * list Event)),
    run config reqs st = (outs, final) ->
    match worker st with
    | Some inbox =>
        worker final = Some (inbox ++ flat_map (fun o => posted (snd o)) outs)
    | None =>
        worker final = None /\ flat_map (fun o => posted (snd o)) outs = []
    end.
Proof.
  induction reqs as [|[req clk] rest IH]; intros st final outs Hrun.
  - injection Hrun as <- <-. cbn. destruct (worker st); [now rewrite app_nil_r | auto].
  - cbn [run] in Hrun.
    destruct (handler config req clk st) as [[out st1] tr] eqn:Hstep.
    destruct (run config rest st1) as [outs' final'] eqn:Hrest.
    injection Hrun as <- <-. specialize (IH _ _ _ Hrest). cbn [flat_map snd].
    apply handler_Run in Hstep.
    destruct (Run_unchanged_or_accepted _ _ _ _ _ _ _ Hstep)
      as [[-> Hpure] | (body & c & inbox & _ & Hw & _ & -> & ->)].
    + rewrite (pure_trace_posts_nothing _ Hpure). exact IH.
    + rewrite Hw. cbn [accepted_state worker] in IH.
      rewrite accepted_trace_posts_body, IH. now rewrite <- app_assoc.
Qed.

(** One run keeps the invariant of the deliveries. *)
Lemma handler_delivers_once (req : Request) (clk : Clock) (st st' : State)
    (out : Outcome) (tr : list Event) :
  handler config req clk st = (out, st', tr) ->
  delivered_once st -> delivered_once st'.
Proof.
  intros Hrun Hinv. apply handler_Run in Hrun.
  destruct (Run_unchanged_or_accepted _ _ _ _ _ _ _ Hrun)
    as [[-> _] | (body & c & inbox & Hreach & Hw & _ & -> & _)]; [assumption|].
  unfold delivered_once in *. rewrite Hw in Hinv. destruct Hinv as [Hnodup Hmarked].
  cbn [accepted_state worker processed]. open_paths.
  rewrite map_app. cbn [map message_key]. split.
  - apply NoDup_app. split; [assumption|]. split; [|apply NoDup_singleton].
    intros key Hin Hnew. apply list_elem_of_singleton in Hnew. subst key.
    apply list_elem_of_fmap in Hin as (m & Hkey & Hm).
    rewrite Forall_forall in Hmarked. specialize (Hmarked m Hm). congruence.
  - apply Forall_app. split.
    + eapply Forall_impl; [exact Hmarked|]. intros m Hm.
      unfold isWebhookProcessed, markWebhookProcessed in *.
      destruct (decide (key_of body = message_key m)) as [->|Hne].
      * now rewrite lookup_insert_eq.
      * now rewrite lookup_insert_ne.
    + constructor; [|constructor]. cbn [message_key].
      unfold isWebhookProcessed, markWebhookProcessed. now rewrite lookup_insert_eq.
Qed.

(** X13. At most once: along any run of requests, if the messages that the
    worker holds carry different keys that the ledger holds, this stays
    so; from process start with an empty inbox, the worker never holds two
    messages with the same idempotency key. *)
Theorem delivered_at_most_once (reqs : list (Request * Clock)) :
  forall (st final : State) (outs : list (Outcome * list Event)),
    run config reqs st = (outs, final) ->
    delivered_once st ->
    delivered_once final
    /\ (forall inbox, worker final = Some inbox -> NoDup (map message_key inbox)).
Proof.
  assert (Hgen : forall reqs st final outs,
             run config reqs st = (outs, final) -> delivered_once st ->
             delivered_once final).
  { clear. induction reqs as [|[req clk] rest IH]; intros st final outs Hrun Hinv.
    - injection Hrun as _ <-. assumption.
    - cbn [run] in Hrun.
      destruct (handler config req clk st) as [[out st1] tr] eqn:Hstep.
      destruct (run config rest st1) as [outs' final'] eqn:Hrest.
      injection Hrun as _ <-.
      eapply IH; [eassumption|]. eapply handler_delivers_once; eassumption. }
  intros st final outs Hrun Hinv. pose proof (Hgen _ _ _ _ Hrun Hinv) as Hfinal.
  split; [assumption|]. intros inbox Hw. unfold delivered_once in Hfinal.
  rewrite Hw in Hfinal. apply Hfinal.
Qed.

(** X14. A 503 is only due to the missing worker, and leaves no marker: the
    request had passed every check, and with a worker, at the same
    readings of the clock, it is accepted and forwarded. *)
Theorem unavailable_then_accepted (req : Request) (clk : Clock) (st st' : State)
    (r : Response) (tr : list Event) (inbox : list WorkerMessage) :
  handler config req clk st = (Responded r, st', tr) ->
  http_status r = 503%Z ->
  worker st = None
  /\ st' = st
  /\ exists body tr2,
       JSON_parse (rawBody req) = Some body
       /\ handler config req clk (with_worker inbox st')
          = (Responded success, accepted_state clk body (with_worker inbox st') inbox, tr2)
       /\ posted tr2 = [WEBHOOK_RECEIVED body].
Proof.
  intros Hrun Hstatus. apply handler_Run in Hrun.
  inversion Hrun; subst; try discriminate Hstatus.
  split; [assumption|]. split; [reflexivity|].
  exists body, (trace_forward req clk (with_worker inbox st') c body ++ trace_accept clk body).
  open_paths. split; [assumption|]. split; [|apply accepted_trace_posts_body].
  apply Run_handler, Run_accepted; [|reflexivity].
  unfold reaches_forward, reaches_idempotency, reaches_ratelimit, reaches_freshness,
    reaches_comparison, reaches_signature. cbn [with_worker webhookConfig processed].
  repeat split; assumption.
Qed.

End Deliveries.

(** * Properties of the bearer middleware *)

Lemma Buffer_from_app (s t : string) :
  Buffer_from (s +:+ t) = Buffer_from s ++ Buffer_from t.
Proof.
  unfold Buffer_from. induction s as [|ch s IH]; [reflexivity|].
  change (ch :: list_ascii_of_string (s +:+ t)
          = ch :: (list_ascii_of_string s ++ list_ascii_of_string t)).
  now rewrite IH.
Qed.

Lemma pad_to_same_length (a b : list ascii) :
  List.length a = List.length b ->
  pad_to (Nat.max (List.length a) (List.length b)) a
  = pad_to (Nat.max (List.length a) (List.length b)) b ->
  a = b.
Proof.
  intros L. unfold pad_to. rewrite <- L, Nat.max_id, Nat.sub_diag. cbn [repeat].
  now rewrite !app_nil_r.
Qed.

(** The result of the middleware on a token that is not empty: one call of
    [timingSafeEqual] on the padded buffers, which does not throw. *)
Lemma bearerAuth_nonempty (bearerToken bearer : string) :
  bearer <> EmptyString ->
  let expectedBytes := Buffer_from bearerToken in
  let providedBytes := Buffer_from bearer in
  let maxLen := Nat.max (List.length expectedBytes) (List.length providedBytes) in
  bearerAuth false bearerToken (Some bearer)
  = (if negb (Nat.eqb (List.length expectedBytes) (List.length providedBytes))
        || negb (bool_decide (pad_to maxLen expectedBytes = pad_to maxLen providedBytes))
     then AuthError 401 "Unauthorized"
     else User "authenticated", 1).
Proof.
  intros Hne. cbv zeta. unfold bearerAuth. cbv zeta.
  destruct bearer as [|b0 bearer]; [contradiction|].
  generalize (String b0 bearer). intros provided.
  rewrite timingSafeEqual_spec
    by (rewrite !pad_to_length; [reflexivity | apply Nat.le_max_r | apply Nat.le_max_l]).
  now destruct (_ || _).
Qed.

(** The earlier version on a token that is not empty. *)
Lemma bearerAuth_v1_nonempty (bearerToken bearer : string) :
  bearer <> EmptyString ->
  bearerAuth_v1 false bearerToken (Some bearer)
  = if Nat.eqb (List.length (Buffer_from bearerToken)) (List.length (Buffer_from bearer))
    then (if String.eqb bearerToken bearer
          then User "authenticated" else AuthError 401 "Unauthorized", 1)
    else (AuthError 401 "Unauthorized", 0).
Proof.
  intros Hne. unfold bearerAuth_v1. cbv zeta.
  destruct bearer as [|b0 bearer]; [contradiction|].
  generalize (String b0 bearer). intros provided.
  destruct (Nat.eqb_spec (List.length (Buffer_from bearerToken))
              (List.length (Buffer_from provided))) as [L|L]; cbn [negb]; [|reflexivity].
  rewrite (timingSafeEqual_spec _ _ L).
  destruct (String.eqb_spec bearerToken provided) as [->|Hdiff].
  - now rewrite bool_decide_eq_true_2.
  - rewrite bool_decide_eq_false_2; [reflexivity|].
    intros E. now apply Buffer_from_inj in E.
Qed.

(** X15. With authentication enabled, the middleware authenticates exactly the
    configured token: the result is the authenticated user if and only if
    a token is presented, is not empty, and is the configured one; every
    other request is answered 401. With authentication disabled every
    request is the anonymous user and nothing is compared. *)
Theorem bearerAuth_accepts_exactly_token (bearerToken : string) (bearer : option string) :
  (fst (bearerAuth false bearerToken bearer) = User "authenticated"
   <-> bearer = Some bearerToken /\ bearerToken <> EmptyString)
  /\ (fst (bearerAuth false bearerToken bearer) = User "authenticated"
      \/ fst (bearerAuth false bearerToken bearer) = AuthError 401 "Unauthorized")
  /\ bearerAuth true bearerToken bearer = (User "anonymous", 0).
Proof.
  split; [|split; [|reflexivity]].
  - destruct bearer as [b|].
    2: { cbn. split; [discriminate | intros [[=] _]]. }
    destruct (string_dec b EmptyString) as [->|Hne].
    { cbn. split; [discriminate | intros [[= <-] Hne]; contradiction]. }
    rewrite (bearerAuth_nonempty bearerToken b Hne). cbn [fst].
    destruct (Nat.eqb_spec (List.length (Buffer_from bearerToken))
                (List.length (Buffer_from b))) as [L|L]; cbn [negb orb].
    + destruct (bool_decide_reflect
                  (pad_to (Nat.max (List.length (Buffer_from bearerToken))
                                   (List.length (Buffer_from b))) (Buffer_from bearerToken)
                   = pad_to (Nat.max (List.length (Buffer_from bearerToken))
                                     (List.length (Buffer_from b))) (Buffer_from b)))
        as [E|E]; cbn [negb].
      * apply (pad_to_same_length _ _ L), Buffer_from_inj in E. subst b.
        split; [intros _; now split | reflexivity].
      * split; [discriminate|]. intros [[= <-] _]. now contradiction E.
    + split; [discriminate|]. intros [[= <-] _]. now contradiction L.
  - destruct bearer as [b|]; [|now right].
    destruct (string_dec b EmptyString) as [->|Hne]; [now right|].
    rewrite (bearerAuth_nonempty bearerToken b Hne). cbn [fst].
    destruct (_ || _); [now right | now left].
Qed.

(** X16. The two versions of the middleware give the same result on every
    request. They differ in the comparison: on a token that is not empty,
    the current version calls [timingSafeEqual] once, whatever the length
    of the token, and the earlier one only when the token has the length
    of the configured one. *)
Theorem bearerAuth_versions_agree (authDisabled : bool) (bearerToken : string)
    (bearer : option string) :
  fst (bearerAuth_v1 authDisabled bearerToken bearer)
  = fst (bearerAuth authDisabled bearerToken bearer)
  /\ (forall b, authDisabled = false -> bearer = Some b -> b <> EmptyString ->
        snd (bearerAuth authDisabled bearerToken bearer) = 1
        /\ snd (bearerAuth_v1 authDisabled bearerToken bearer)
           = if Nat.eqb (String.length bearerToken) (String.length b) then 1 else 0).
Proof.
  assert (Hlen : forall s, List.length (Buffer_from s) = String.length s).
  { unfold Buffer_from. induction s as [|ch s IH]; [reflexivity|]. cbn. now rewrite IH. }
  split.
  - destruct authDisabled; [reflexivity|].
    destruct bearer as [b|]; [|reflexivity].
    destruct (string_dec b EmptyString) as [->|Hne]; [reflexivity|].
    rewrite (bearerAuth_nonempty bearerToken b Hne), (bearerAuth_v1_nonempty bearerToken b Hne).
    destruct (Nat.eqb_spec (List.length (Buffer_from bearerToken))
                (List.length (Buffer_from b))) as [L|L]; cbn [negb orb fst]; [|reflexivity].
    destruct (String.eqb_spec bearerToken b) as [->|Hdiff].
    + now rewrite bool_decide_eq_true_2.
    + rewrite bool_decide_eq_false_2; [reflexivity|].
      intros E. now apply (pad_to_same_length _ _ L), Buffer_from_inj in E.
  - intros b -> -> Hne.
    rewrite (bearerAuth_nonempty bearerToken b Hne), (bearerAuth_v1_nonempty bearerToken b Hne).
    rewrite !Hlen. split; [reflexivity|].
    now destruct (Nat.eqb (String.length bearerToken) (String.length b)).
Qed.

(** X17. The comparison of the lengths after the padding is needed: a token
    that is the configured one followed by a NUL byte is equal to it once
    both are padded, so [timingSafeEqual] answers true, and it is the
    test of the lengths that rejects it. *)
Theorem padded_token_rejected_by_length (bearerToken : string) :
  let bearer := bearerToken +:+ String zero EmptyString in
  let maxLen := Nat.max (List.length (Buffer_from bearerToken))
                        (List.length (Buffer_from bearer)) in
  timingSafeEqual (pad_to maxLen (Buffer_from bearerToken))
                  (pad_to maxLen (Buffer_from bearer)) = Some true
  /\ bearerAuth false bearerToken (Some bearer) = (AuthError 401 "Unauthorized", 1).
Proof.
  intros bearer maxLen.
  assert (Hlen : List.length (Buffer_from bearer) = S (List.length (Buffer_from bearerToken))).
  { subst bearer. rewrite Buffer_from_app, length_app. cbn. lia. }
  assert (Hpad : pad_to maxLen (Buffer_from bearerToken) = pad_to maxLen (Buffer_from bearer)).
  { subst maxLen. rewrite Hlen. unfold pad_to.
    rewrite Nat.max_r by lia. rewrite Hlen.
    replace (S (List.length (Buffer_from bearerToken)) - List.length (Buffer_from bearerToken))
      with 1 by lia.
    rewrite Nat.sub_diag. subst bearer. rewrite Buffer_from_app. cbn [repeat].
    now rewrite app_nil_r. }
  assert (Hne : bearer <> EmptyString).
  { subst bearer. destruct bearerToken; discriminate. }
  split.
  - rewrite timingSafeEqual_spec by (now rewrite Hpad).
    now rewrite bool_decide_eq_true_2.
  - rewrite (bearerAuth_nonempty bearerToken bearer Hne). fold maxLen.
    rewrite Hlen.
    destruct (Nat.eqb_spec (List.length (Buffer_from bearerToken))
                (S (List.length (Buffer_from bearerToken)))) as [L|L]; [lia|reflexivity].
Qed.

(** * The further properties on the sample platforms *)

Section FurtherRuns.
Import Sample Scenario.

(** The body [null] is a primitive. *)
Lemma primitive_body_throws_witness :
  JSON_parse (rawBody null) = Some JNull
  /\ handler config null (at_time t0) start
     = (Threw "TypeError", start, [EvReadBody; EvJsonParse (rawBody null); EvIsPing]).
Proof.
  split; [reflexivity|].
  apply (primitive_body_throws (H := platform) config null (at_time t0) start JNull);
    reflexivity.
Defined.

(** The accepted notification passed every step. *)
Lemma forwarded_passed_every_step_witness :
  let req := signed text_notification in
  let clk := at_time (t0 + 5) in
  exists body c inbox,
    JSON_parse (rawBody req) = Some body
    /\ isPing body = Some false
    /\ webhookConfig start = Some c
    /\ content_mac req
       = Some ("hmac-sha256=" +:+ calculateWebhookHmac (macSecretBase64 c) (rawBody req))
    /\ (forall ts, get_prop "timestamp" body = Some ts -> truthy (Some ts) = true ->
          exists t, Date_getTime ts = Some (Some t)
                    /\ (Z.abs (now_freshness clk - t) <= webhookTimestampWindow config * 1000)%Z)
    /\ ((lastProcessedTime start <= 0)%Z
        \/ (webhookRateLimit config * 1000 <= now_ratelimit clk - lastProcessedTime start)%Z)
    /\ isWebhookProcessed (key_of body) (processed start) = false
    /\ worker start = Some inbox.
Proof.
  intros req clk.
  apply (forwarded_passed_every_step (H := platform) config req clk start accepted
           (Responded success) (snd (handler config req clk start))); reflexivity.
Defined.

(** The accepted notification and the state it leaves. *)
Lemma forwarded_updates_state_witness :
  let req := signed text_notification in
  let clk := at_time (t0 + 5) in
  let tr := snd (handler config req clk start) in
  exists body inbox,
    JSON_parse (rawBody req) = Some body
    /\ lastProcessedTime accepted = now_accept clk
    /\ webhookConfig accepted = webhookConfig start
    /\ worker start = Some inbox
    /\ worker accepted = Some (inbox ++ [WEBHOOK_RECEIVED body])
    /\ posted tr = [WEBHOOK_RECEIVED body]
    /\ (exists mk, processed accepted !! key_of body = Some mk
                   /\ marker_mode mk = "incremental")
    /\ (forall key, key <> key_of body -> processed accepted !! key = processed start !! key).
Proof.
  intros req clk tr.
  apply (forwarded_updates_state (H := platform) config req clk start accepted
           (Responded success) tr); reflexivity.
Defined.

(** The hint of the rate limit scenario is within the bounds. *)
Lemma retry_after_bounds_witness :
  let req := signed text_notification' in
  let clk := at_time (t0 + 7) in
  let r := rate_limit_response config clk accepted in
  http_status r = 429%Z
  /\ exists retryAfter,
       response_body r = RateLimitBody "Rate limit exceeded" retryAfter
       /\ (1 <= retryAfter)%Z
       /\ ((lastProcessedTime accepted <= now_ratelimit clk)%Z ->
           (retryAfter <= webhookRateLimit config)%Z /\ (0 < webhookRateLimit config)%Z).
Proof.
  intros req clk r. split; [reflexivity|].
  apply (retry_after_bounds (H := platform) config req clk accepted accepted r
           (snd (handler config req clk accepted))); reflexivity.
Defined.

(** Two seconds after the acceptance, with the interval at one second, the
    duplicate is not answered 429. *)
Lemma interval_elapsed_not_limited_witness :
  let req := signed text_notification in
  let clk := at_time (t0 + 2005) in
  (lastProcessedTime accepted + webhookRateLimit config * 1000 <= now_ratelimit clk)%Z
  /\ http_status already_processed <> 429%Z.
Proof.
  intros req clk. split; [discriminate|].
  apply (interval_elapsed_not_limited (H := platform) config req clk accepted accepted
           already_processed (snd (handler config req clk accepted)));
    [reflexivity | discriminate].
Defined.

(** The same notification again, 2 ms after it was accepted: 429, and the
    ledger is not consulted. *)
Lemma rate_limit_before_ledger_witness :
  let req := signed text_notification in
  let clk := at_time (t0 + 7) in
  let r := rate_limit_response config clk accepted in
  isWebhookProcessed (key_of body_notification) (processed accepted) = true
  /\ (looks_up (snd (handler config req clk accepted)) = false
      /\ r <> already_processed /\ (0 < lastProcessedTime accepted)%Z).
Proof.
  intros req clk r. split; [reflexivity|].
  apply (rate_limit_before_ledger (H := platform) config req clk accepted accepted r
           (snd (handler config req clk accepted))); reflexivity.
Defined.

(** The run of the notification and of its duplicate two seconds later:
    the worker holds one message. *)
Lemma worker_receives_posted_witness :
  let reqs := [(signed text_notification, at_time (t0 + 5));
               (signed text_notification', at_time (t0 + 2005))] in
  let outs := fst (run config reqs start) in
  let final := snd (run config reqs start) in
  worker final = Some ([] ++ flat_map (fun o => posted (snd o)) outs)
  /\ worker final = Some [WEBHOOK_RECEIVED body_notification].
Proof.
  intros reqs outs final. split; [|reflexivity].
  exact (worker_receives_posted (H := platform) config reqs start final outs
           (surjective_pairing (run config reqs start))).
Defined.

(** The same run keeps the deliveries unique. *)
Lemma delivered_at_most_once_witness :
  let reqs := [(signed text_notification, at_time (t0 + 5));
               (signed text_notification', at_time (t0 + 2005))] in
  let final := snd (run config reqs start) in
  delivered_once start
  /\ (delivered_once final
      /\ (forall inbox, worker final = Some inbox -> NoDup (map message_key inbox))).
Proof.
  intros reqs final.
  assert (Hstart : delivered_once start) by (split; constructor).
  split; [exact Hstart|].
  exact (delivered_at_most_once (H := platform) config reqs start final
           (fst (run config reqs start)) (surjective_pairing (run config reqs start)) Hstart).
Defined.

(** A token of the length of the configured one, and a shorter one. *)
Lemma bearerAuth_versions_agree_witness :
  (snd (bearerAuth false "token" (Some "tokem")) = 1
   /\ snd (bearerAuth_v1 false "token" (Some "tokem")) = 1)
  /\ (snd (bearerAuth false "token" (Some "t")) = 1
      /\ snd (bearerAuth_v1 false "token" (Some "t")) = 0).
Proof.
  split.
  - apply (proj2 (bearerAuth_versions_agree false "token" (Some "tokem")) "tokem");
      [reflexivity | reflexivity | discriminate].
  - apply (proj2 (bearerAuth_versions_agree false "token" (Some "t")) "t");
      [reflexivity | reflexivity | discriminate].
Defined.

End FurtherRuns.

Section FurtherRuns2.
Import Sample2.
#[local] Existing Instance platform2.

(** The empty array, sent without a signature header. *)
Lemma array_body_is_ping_witness :
  let req := {| rawBody := text_array; content_mac := None |} in
  handler Sample.config req (Sample.at_time Sample.t0) start2
  = (Responded success, start2, [EvReadBody; EvJsonParse (rawBody req); EvIsPing]).
Proof.
  intros req.
  apply (array_body_is_ping (H := platform2) Sample.config req (Sample.at_time Sample.t0)
           start2 []).
  reflexivity.
Defined.

(** The notification without header, when no configuration exists: 401,
    not 500. *)
Lemma missing_header_rejected_first_witness :
  let req := {| rawBody := Sample.text_notification; content_mac := None |} in
  webhookConfig unconfigured = None
  /\ handler Sample.config req (Sample.at_time Sample.t0) unconfigured
     = (Responded (error_response 401 "Missing signature header"), unconfigured,
        [EvReadBody; EvJsonParse (rawBody req); EvIsPing; EvGetHeader]).
Proof.
  intros req. split; [reflexivity|].
  apply (missing_header_rejected_first (H := platform2) Sample.config req
           (Sample.at_time Sample.t0) unconfigured
           [Sample.webhook_field; ("timestamp", JStr "2024-01-01T00:00:00.000Z")]);
    [reflexivity | reflexivity | left; reflexivity].
Defined.

(** The notification with its signature, when no configuration exists. *)
Lemma unconfigured_fails_closed_witness :
  let req := Sample.signed Sample.text_notification in
  handler Sample.config req (Sample.at_time Sample.t0) unconfigured
  = (Responded (error_response 500 "Webhook not configured"), unconfigured,
     [EvReadBody; EvJsonParse (rawBody req); EvIsPing; EvGetHeader; EvGetWebhookConfig]).
Proof.
  intros req.
  apply (unconfigured_fails_closed (H := platform2) Sample.config req
           (Sample.at_time Sample.t0) unconfigured Sample.body_notification
           (expectedSignature "czNjcjN0" Sample.text_notification));
    [reflexivity | reflexivity | reflexivity | discriminate | reflexivity].
Defined.

(** A notification without webhook identifier is accepted; two seconds
    later one with the identifier [undefined] and the same timestamp
    reaches the idempotency step and is taken for its duplicate. *)
Lemma same_key_is_duplicate_witness :
  let req1 := Sample.signed text_no_id in
  let req2 := Sample.signed text_undefined_id in
  let clk1 := Sample.at_time (Sample.t0 + 5) in
  let clk2 := Sample.at_time (Sample.t0 + 2005) in
  let st1 := snd (fst (handler Sample.config req1 clk1 start2)) in
  let out2 := fst (fst (handler Sample.config req2 clk2 st1)) in
  let tr2 := snd (handler Sample.config req2 clk2 st1) in
  webhookId_of body_no_id <> webhookId_of body_undefined_id
  /\ looks_up tr2 = true
  /\ out2 = Responded already_processed
  /\ (forwards tr2 = false
      /\ st1 = st1
      /\ (looks_up tr2 = true -> out2 = Responded already_processed)).
Proof.
  intros req1 req2 clk1 clk2 st1 out2 tr2.
  split; [discriminate|]. split; [reflexivity|]. split; [reflexivity|].
  apply (same_key_is_duplicate (H := platform2) Sample.config req1 req2 clk1 clk2
           body_no_id body_undefined_id [] start2 st1 st1 st1
           (Responded success) out2 (snd (handler Sample.config req1 clk1 start2)) tr2 []);
    reflexivity.
Defined.

(** The notification when there is no worker, and with one. *)
Lemma unavailable_then_accepted_witness :
  let req := Sample.signed Sample.text_notification in
  let clk := Sample.at_time (Sample.t0 + 5) in
  let r := error_response 503 "Worker service unavailable" in
  fst (fst (handler Sample.config req clk no_worker)) = Responded r
  /\ (worker no_worker = None
      /\ no_worker = no_worker
      /\ exists body tr2,
           JSON_parse (rawBody req) = Some body
           /\ handler Sample.config req clk (with_worker [] no_worker)
              = (Responded success,
                 accepted_state clk body (with_worker [] no_worker) [], tr2)
           /\ posted tr2 = [WEBHOOK_RECEIVED body]).
Proof.
  intros req clk r. split; [reflexivity|].
  apply (unavailable_then_accepted (H := platform2) Sample.config req clk no_worker
           no_worker r (snd (handler Sample.config req clk no_worker)) []); reflexivity.
Defined.

(** C7 as the specification states it fails on a notification whose
    envelope carries the empty string as timestamp: the timestamp does not
    parse, and the notification is not rejected as unauthorized; the test
    [if (timestamp)] skips the validation, and the notification is accepted
    and forwarded. *)
Lemma empty_timestamp_counterexample :
  let req := Sample.signed text_empty_timestamp in
  let clk := Sample.at_time (Sample.t0 + 5) in
  exists body ts st' tr,
    JSON_parse (rawBody req) = Some body
    /\ get_prop "timestamp" body = Some ts
    /\ Date_getTime ts = Some None
    /\ handler Sample.config req clk start2 = (Responded success, st', tr)
    /\ forwards tr = true
    /\ Responded success <> Responded (error_response 401 "Expired timestamp").
Proof.
  intros req clk. eexists _, _, _, _.
  split; [reflexivity|]. split; [reflexivity|]. split; [reflexivity|].
  split; [reflexivity|]. split; [reflexivity | discriminate].
Qed.

(** The notification whose timestamp is the object [{"toString":1}]. *)
Lemma object_timestamp_throws_witness :
  let req := Sample.signed text_object_timestamp in
  handler Sample.config req (Sample.at_time (Sample.t0 + 5)) start2
  = (Threw "TypeError", start2,
     [EvReadBody; EvJsonParse text_object_timestamp; EvIsPing; EvGetHeader;
      EvGetWebhookConfig; EvHmac "czNjcjN0" text_object_timestamp;
      EvCompareLength 73 73; EvTimingSafeEqual; EvReadTimestamp]).
Proof.
  intros req.
  apply (object_timestamp_throws (H := platform2) Sample.config req
           (Sample.at_time (Sample.t0 + 5)) start2 body_object_timestamp Sample.secret
           [("toString", JNum 1%Z)]); reflexivity.
Defined.

(** The notification whose identifier is the object [{"toString":1}]. *)
Lemma object_webhookId_throws_witness :
  let req := Sample.signed text_object_id in
  let clk := Sample.at_time (Sample.t0 + 5) in
  let tr := trace_ratelimit req clk start2 Sample.secret body_object_id
            ++ [EvReadWebhookId] in
  handler Sample.config req clk start2 = (Threw "TypeError", start2, tr)
  /\ looks_up tr = false.
Proof.
  intros req clk tr.
  apply (object_webhookId_throws (H := platform2) Sample.config req clk start2
           body_object_id Sample.secret [("toString", JNum 1%Z)]);
    [|reflexivity|reflexivity].
  repeat split; try reflexivity. discriminate.
Defined.

End FurtherRuns2.
